(** * residence_imputer: evidence fusion and orchestration

    A shallow embedding of [src/core/dto.py], [src/core/policy.py],
    [src/core/fusion.py] and [src/core/imputer.py].

    Python's [float] is IEEE 754 binary64; it is modelled by Rocq's primitive
    [float], whose operations are the same binary64 operations (round to
    nearest, ties to even) and whose comparisons are the IEEE comparisons
    (every comparison with NaN is false).  [Optional[T]] is [option T],
    [str] is [string], the [Literal] enumerations are inductive types and a
    raised exception is the [Raise] constructor of [result]. *)

From Stdlib Require Import Bool List String ZArith Lia.
From Stdlib Require Import Floats.
Import ListNotations.

Set Warnings "-inexact-float".
Open Scope string_scope.

(** ** dto.py *)

Module Dto.

(** [Source = Literal["DCO", "SIGGES", "NLP"]] *)
Inductive Source : Type := DCO | SIGGES | NLP.

(** [AddressQuality = Literal["EXACT", "PARTIAL", "UNKNOWN"]] *)
Inductive AddressQuality : Type := EXACT | PARTIAL | UNKNOWN.

(** [ResidenceEvidence]; [as_of_date] is carried as an opaque ISO string. *)
Record ResidenceEvidence : Type := mkEvidence {
  origin : Source;
  comuna_code : option string;
  address : option string;
  p_model : option float;
  model_ver : option string;
  as_of_date : option string
}.

(** [Decision], the record of the service contract. *)
Record Decision : Type := mkDecision {
  d_region : string;
  d_region_code : string;
  d_comuna : string;
  d_comuna_code : string;
  d_address : string;
  d_confidence : float;
  d_sources : list Source;
  d_audit_id : string
}.

Definition Source_eqb (a b : Source) : bool :=
  match a, b with
  | DCO, DCO | SIGGES, SIGGES | NLP, NLP => true
  | _, _ => false
  end.

End Dto.
Export Dto.

(** ** Python values: truthiness, [or], exceptions *)

Module Py.

(** Truth value of a [str]: only the empty string is falsy. *)
Definition truthy_str (s : string) : bool :=
  match s with
  | EmptyString => false
  | String _ _ => true
  end.

(** Truth value of an [Optional[str]]: [None] and [""] are falsy. *)
Definition truthy (o : option string) : bool :=
  match o with
  | None => false
  | Some s => truthy_str s
  end.

(** [o or ""] for [o : Optional[str]]. *)
Definition or_empty (o : option string) : string :=
  match o with
  | Some s => if truthy_str s then s else ""
  | None => ""
  end.

(** [a == b] on [Optional[str]]. *)
Definition opt_str_eqb (a b : option string) : bool :=
  match a, b with
  | None, None => true
  | Some x, Some y => String.eqb x y
  | _, _ => false
  end.

(** The exception classes the core sees; every one of them derives from
    [Exception], so [except Exception] catches them all.  [ValueError] is
    the domain error of the core. *)
Inductive exn_class : Type :=
| ValueError
| TimeoutError
| NotFoundError
| DataQualityError
| AuthError
| PortError
| AttributeError
| OtherException (name : string).

(** A raised exception: its class and [str(ex)]. *)
Record exn : Type := mkExn { exn_cls : exn_class; exn_msg : string }.

(** Outcome of a call: a returned value or a raised exception. *)
Inductive result (A : Type) : Type :=
| Return (a : A)
| Raise (e : exn).
Arguments Return {A} a.
Arguments Raise {A} e.

Definition bind {A B : Type} (r : result A) (k : A -> result B) : result B :=
  match r with
  | Return a => k a
  | Raise e => Raise e
  end.

Definition raises_value_error {A : Type} (r : result A) : Prop :=
  exists msg, r = Raise (mkExn ValueError msg).

Definition returns {A : Type} (r : result A) : Prop :=
  exists a, r = Return a.

End Py.
Export Py.

Notation "x <- c1 ;; c2" := (bind c1 (fun x => c2))
  (at level 61, c1 at next level, right associativity).

(** ** policy.py *)

Module Policy.

(** The constants [fusion.py] imports from [policy.py] (its own defaults are
    the same values).  They are a record so that statements can range over
    other policies too. *)
Record t : Type := mk {
  PREFER_NLP : bool;
  W_NLP : float;
  BOOST_AGREE : float;
  ADDR_BONUS_SIGGES : float;
  ADDR_BONUS_NLP : float;
  NLP_P_DEFAULT : float;
  DCO_BASE_CONF : float;
  DCO_NO_ADDRESS_PENALTY : float;
  SIGGES_ONLY_BASE : float
}.

Definition default : t := {|
  PREFER_NLP := true;
  W_NLP := 0.90;
  BOOST_AGREE := 0.15;
  ADDR_BONUS_SIGGES := 0.05;
  ADDR_BONUS_NLP := 0.03;
  NLP_P_DEFAULT := 0.70;
  DCO_BASE_CONF := 0.98;
  DCO_NO_ADDRESS_PENALTY := 0.92;
  SIGGES_ONLY_BASE := 0.65
|}.

(** [_in01] of [validate_policy]: [0.0 <= x <= 1.0]. *)
Definition _in01 (x : float) : bool := ((0.0 <=? x) && (x <=? 1.0))%float.

(** The first loop of [validate_policy] finds nothing to raise about:
    the weights, bonuses and base confidences are all in [0,1]. *)
Definition weights_in01 (pol : t) : bool :=
  forallb _in01
    [W_NLP pol; BOOST_AGREE pol; ADDR_BONUS_SIGGES pol; ADDR_BONUS_NLP pol;
     NLP_P_DEFAULT pol; DCO_BASE_CONF pol; DCO_NO_ADDRESS_PENALTY pol;
     SIGGES_ONLY_BASE pol].

Definition GLOBAL_SOFT_MS : Z := 1800.
Definition BUDGET_DCO_MS : Z := 200.
Definition BUDGET_SIGGES_MS : Z := 200.
Definition BUDGET_NLP_MS : Z := 900.

End Policy.

(** ** fusion.py *)

Module Fusion.
Import Policy.

Record DecisionCore : Type := mkCore {
  core_comuna_code : string;
  core_address : string;
  core_confidence : float;
  core_sources : list Source;
  core_rule_path : string;
  core_tie_break_reason : option string
}.

(** [clamp(x, lo, hi)]: [return hi if x > hi else lo if x < lo else x];
    [x > hi] is the comparison [hi < x]. *)
Definition clamp_range (x lo hi : float) : float :=
  if (hi <? x)%float then hi
  else if (x <? lo)%float then lo
  else x.

(** [clamp(x)], with the defaults [lo=0.0] and [hi=1.0]. *)
Definition clamp (x : float) : float := clamp_range x 0.0 1.0.

Definition quality_to_weight (q : option AddressQuality) : float :=
  match q with
  | Some EXACT => 1.0
  | Some PARTIAL => 0.7
  | Some UNKNOWN => 0.4
  | None => 0.0
  end.

Definition default_addr_weight (source : Source) (address : option string) : float :=
  if negb (truthy address) then 0.0
  else if Source_eqb source SIGGES then 0.7 else 0.5.

Definition msg_deceased : string :=
  "DCO evidence required with comuna_code for deceased path".

Definition msg_alive : string :=
  "Insufficient evidence to decide for alive path (no comuna from NLP or SIGGES)".

Section WithPolicy.
Variable pol : Policy.t.

Definition decide_deceased (dco_ev : option ResidenceEvidence) : result DecisionCore :=
  match dco_ev with
  | None => Raise (mkExn ValueError msg_deceased)
  | Some ev =>
    match comuna_code ev with
    | None => Raise (mkExn ValueError msg_deceased)
    | Some code =>
      let completeness :=
        if truthy (address ev) then 1.0%float else DCO_NO_ADDRESS_PENALTY pol in
      let confidence := clamp (DCO_BASE_CONF pol * completeness) in
      Return {| core_comuna_code := code;
                core_address := or_empty (address ev);
                core_confidence := confidence;
                core_sources := [DCO];
                core_rule_path := "DECEASED_DCO";
                core_tie_break_reason := None |}
    end
  end.

(** [ev and ev.comuna_code]: the evidence is there and its comuna code is
    a non-empty string; the code is handed over when the test succeeds. *)
Definition truthy_comuna (ev : option ResidenceEvidence) : option string :=
  match ev with
  | None => None
  | Some e =>
    match comuna_code e with
    | Some c => if truthy_str c then Some c else None
    | None => None
    end
  end.

(** [bool(sigges_ev and sigges_ev.comuna_code == nlp_ev.comuna_code)] *)
Definition agreement (sigges_ev : option ResidenceEvidence)
    (nlp_code : option string) : bool :=
  match sigges_ev with
  | None => false
  | Some s => opt_str_eqb (comuna_code s) nlp_code
  end.

(** [sigges_ev.address if sigges_ev else None] *)
Definition address_of (ev : option ResidenceEvidence) : option string :=
  match ev with
  | Some e => address e
  | None => None
  end.

Definition decide_alive
    (nlp_ev sigges_ev : option ResidenceEvidence)
    (addr_quality_sigges addr_quality_nlp : option AddressQuality)
  : result DecisionCore :=
  match nlp_ev, truthy_comuna nlp_ev with
  | Some nlp, Some nlp_code =>
    (* Caso 1: NLP trae comuna *)
    let agree := agreement sigges_ev (comuna_code nlp) in
    let '(addr, addr_bonus, sources, rule_path) :=
      if agree then
        let q_sigges :=
          match addr_quality_sigges with
          | Some _ => quality_to_weight addr_quality_sigges
          | None => default_addr_weight SIGGES (address_of sigges_ev)
          end in
        (or_empty (address_of sigges_ev),
         (ADDR_BONUS_SIGGES pol * q_sigges)%float,
         [NLP; SIGGES],
         "ALIVE_NLP_AGREE_SIGGES")
      else
        let q_nlp :=
          match addr_quality_nlp with
          | Some _ => quality_to_weight addr_quality_nlp
          | None => default_addr_weight NLP (address nlp)
          end in
        (or_empty (address nlp),
         (ADDR_BONUS_NLP pol * q_nlp)%float,
         [NLP],
         "ALIVE_NLP_DISAGREE") in
    let p :=
      match p_model nlp with
      | Some p => p
      | None => NLP_P_DEFAULT pol
      end in
    let base := (W_NLP pol * p)%float in
    let boost := if agree then BOOST_AGREE pol else 0.0%float in
    let confidence := clamp (base + boost + addr_bonus) in
    Return {| core_comuna_code := nlp_code;
              core_address := addr;
              core_confidence := confidence;
              core_sources := sources;
              core_rule_path := rule_path;
              core_tie_break_reason := None |}
  | _, _ =>
    match sigges_ev, truthy_comuna sigges_ev with
    | Some sg, Some sg_code =>
      (* Caso 2: NLP no aporta comuna y SIGGES si *)
      let q_sigges :=
        match addr_quality_sigges with
        | Some _ => quality_to_weight addr_quality_sigges
        | None => default_addr_weight SIGGES (address sg)
        end in
      let confidence :=
        clamp (SIGGES_ONLY_BASE pol + ADDR_BONUS_SIGGES pol * q_sigges) in
      Return {| core_comuna_code := sg_code;
                core_address := or_empty (address sg);
                core_confidence := confidence;
                core_sources := [SIGGES];
                core_rule_path := "ALIVE_SIGGES_ONLY";
                core_tie_break_reason := None |}
    | _, _ =>
      (* Caso 3: insuficiente evidencia *)
      Raise (mkExn ValueError msg_alive)
    end
  end.

End WithPolicy.

End Fusion.
Export Fusion.

(** ** imputer.py *)

Module Imputer.

(** The collaborators of [ResidenceImputer] and its budgets.  A connector is
    a function of its arguments giving what the call returns or raises; the
    protocols promise a [ResidenceEvidence], and since the orchestrator also
    guards against [None] the model lets a connector return it.
    [elapsed_ms n] is the value of [int((time.monotonic() - t0) * 1000)] at
    the [n]-th call of [remaining_ms] within one [decide]. *)
Record Env : Type := mkEnv {
  dco_fetch : string -> string -> Z -> result (option ResidenceEvidence);
  sigges_fetch : string -> string -> Z -> result (option ResidenceEvidence);
  nlp_infer : list string -> Z -> result (option ResidenceEvidence);
  normalizer : option (string -> result (string * AddressQuality));
  to_region_code : string -> result string;
  to_comuna_name : string -> result string;
  to_region_name : string -> result string;
  global_soft_ms : Z;
  budget_dco_ms : Z;
  budget_sigges_ms : Z;
  budget_nlp_ms : Z;
  elapsed_ms : nat -> Z
}.

(** [ev.address = std] *)
Definition set_address (ev : ResidenceEvidence) (std : string) : ResidenceEvidence :=
  {| origin := origin ev;
     comuna_code := comuna_code ev;
     address := Some std;
     p_model := p_model ev;
     model_ver := model_ver ev;
     as_of_date := as_of_date ev |}.

Section WithEnv.
Variable env : Env.

Definition remaining_ms (n : nat) : Z :=
  let rem := (global_soft_ms env - elapsed_ms env n)%Z in
  if (rem <? 0)%Z then 0%Z else rem.

Definition _safe_fetch_dco (rut dv : string) (deadline_ms : Z)
  : result (option ResidenceEvidence) :=
  match dco_fetch env rut dv deadline_ms with
  | Return ev => Return ev
  | Raise ex =>
    Raise (mkExn ValueError
             ("DCOReader.fetch failed for deceased path: " ++ exn_msg ex))
  end.

(** [_safe_fetch_sigges_with_quality]: whatever is raised inside the [try],
    by the connector or by the normaliser, leaves [(None, None)]. *)
Definition _safe_fetch_sigges_with_quality (rut dv : string) (deadline_ms : Z)
  : option ResidenceEvidence * option AddressQuality :=
  match sigges_fetch env rut dv deadline_ms with
  | Raise _ => (None, None)
  | Return None => (None, None)
  | Return (Some ev) =>
    match address ev, normalizer env with
    | Some a, Some normalize =>
      if truthy_str a then
        match normalize a with
        | Return (std, q) => (Some (set_address ev std), Some q)
        | Raise _ => (None, None)
        end
      else (Some ev, None)
    | _, _ => (Some ev, None)
    end
  end.

Definition _safe_infer_nlp_with_quality (texts : list string) (deadline_ms : Z)
  : option ResidenceEvidence * option AddressQuality :=
  match nlp_infer env texts deadline_ms with
  | Raise _ => (None, None)
  | Return None => (None, None)
  | Return (Some ev) =>
    match address ev, normalizer env with
    | Some a, Some normalize =>
      if truthy_str a then
        match normalize a with
        | Return (std, q) => (Some (set_address ev std), Some q)
        | Raise _ => (None, None)
        end
      else (Some ev, None)
    | _, _ => (Some ev, None)
    end
  end.

Definition _complete_decision (core : DecisionCore) (audit_id : string)
  : result Decision :=
  let comuna_code := core_comuna_code core in
  region_code <- to_region_code env comuna_code ;;
  comuna_name <- to_comuna_name env comuna_code ;;
  region_name <- to_region_name env region_code ;;
  Return {| d_region := region_name;
            d_region_code := region_code;
            d_comuna := comuna_name;
            d_comuna_code := comuna_code;
            d_address := or_empty (Some (core_address core));
            d_confidence := core_confidence core;
            d_sources := core_sources core;
            d_audit_id := audit_id |}.

(** [[t for t in (ges_text, noges_text) if t]] *)
Definition nonempty_texts (ges_text noges_text : option string) : list string :=
  (if truthy ges_text then [or_empty ges_text] else []) ++
  (if truthy noges_text then [or_empty noges_text] else []).

Definition msg_attr : string :=
  "'NoneType' object has no attribute 'address'".

Definition decide (pol : Policy.t) (rut dv : string) (vital_status : Z)
    (ges_text noges_text : option string) (audit_id : string) : result Decision :=
  if (vital_status =? 2)%Z then
    (* Rama fallecido *)
    dco_ev <- _safe_fetch_dco rut dv (Z.min (budget_dco_ms env) (remaining_ms 0)) ;;
    dco_ev' <-
      match normalizer env with
      | Some normalize =>
        match dco_ev with
        | None => Raise (mkExn AttributeError msg_attr)
        | Some ev =>
          match address ev with
          | Some a =>
            if truthy_str a then
              r <- normalize a ;;
              Return (Some (set_address ev (fst r)))
            else Return dco_ev
          | None => Return dco_ev
          end
        end
      | None => Return dco_ev
      end ;;
    core <- decide_deceased pol dco_ev' ;;
    _complete_decision core audit_id
  else
    (* Rama vivo *)
    let '(sigges_ev, q_sigges) :=
      _safe_fetch_sigges_with_quality rut dv
        (Z.min (budget_sigges_ms env) (remaining_ms 0)) in
    let texts := nonempty_texts ges_text noges_text in
    let '(nlp_ev, q_nlp) :=
      match texts with
      | [] => (None, None)
      | _ :: _ =>
        _safe_infer_nlp_with_quality texts
          (Z.min (budget_nlp_ms env) (remaining_ms 1))
      end in
    core <- decide_alive pol nlp_ev sigges_ev q_sigges q_nlp ;;
    _complete_decision core audit_id.

End WithEnv.

End Imputer.

Import Policy.

(** ** Readings of the source used in the statements *)

(** The model probability, or the policy's default when there is none. *)
Definition p_or_default (pol : Policy.t) (nlp : ResidenceEvidence) : float :=
  match p_model nlp with
  | Some p => p
  | None => NLP_P_DEFAULT pol
  end.

(** The text-inference evidence's probability as [decide_alive] reads it. *)
Definition p_of (pol : Policy.t) (nlp_ev : option ResidenceEvidence) : float :=
  match nlp_ev with
  | Some nlp => p_or_default pol nlp
  | None => NLP_P_DEFAULT pol
  end.

(** [w] is the weight the specification gives an address [addr] of [source]
    under the hint [hint]. *)
Definition weight_as_specified (hint : option AddressQuality) (source : Source)
    (addr : option string) (w : float) : Prop :=
  (hint <> None -> w = quality_to_weight hint) /\
  (hint = None -> w = default_addr_weight source addr).

(** ** The words of the specification *)

Module Spec.

(** An evidence carries a comuna code when it is there and its code is a
    non-empty string. *)
Definition has_comuna (ev : option ResidenceEvidence) : bool :=
  match ev with
  | Some e => truthy (comuna_code e)
  | None => false
  end.

(** An address is present when it is a non-empty string ([""] is the
    sentinel of an unknown address). *)
Definition address_present (ev : ResidenceEvidence) : bool :=
  truthy (address ev).

(** [quality_weight]: an explicit hint maps EXACT to 1.0, PARTIAL to 0.7 and
    UNKNOWN to 0.4; without a hint, 0.0 when there is no address text, else
    0.7 for claims-system addresses and 0.5 for text-inference ones. *)
Definition quality_weight (hint : option AddressQuality) (source : Source)
    (addr : option string) : float :=
  match hint with
  | Some EXACT => 1.0
  | Some PARTIAL => 0.7
  | Some UNKNOWN => 0.4
  | None =>
    match addr with
    | None | Some "" => 0.0
    | Some _ =>
      match source with
      | SIGGES => 0.7
      | NLP => 0.5
      | DCO => 0.5
      end
    end
  end.

(** The confidence lies in [0.0, 1.0]. *)
Definition in_unit (x : float) : bool := ((0 <=? x) && (x <=? 1))%float.

End Spec.

(** ** Signs of binary64 numbers *)

Module Num.

(** A number that is not negative: a zero, a positive finite number or
    plus infinity. *)
Definition sf_pos (x : spec_float) : bool :=
  match x with
  | S754_zero _ => true
  | S754_finite s _ _ => negb s
  | S754_infinity s => negb s
  | S754_nan => false
  end.

(** A zero or a positive finite number. *)
Definition sf_fin_pos (x : spec_float) : bool :=
  match x with
  | S754_zero _ => true
  | S754_finite s _ _ => negb s
  | _ => false
  end.

(** A float that is not negative, plus infinity included. *)
Definition pos (x : float) : Prop := sf_pos (Prim2SF x) = true.

(** A finite number that is not negative. *)
Definition finite_nonneg (x : float) : bool :=
  ((0 <=? x) && (x <? infinity))%float.

(** Every constant the fusion rules read is finite and not negative; the
    constants may well exceed 1. *)
Definition policy_finite_nonneg (pol : Policy.t) : bool :=
  finite_nonneg (W_NLP pol) && finite_nonneg (BOOST_AGREE pol) &&
  finite_nonneg (ADDR_BONUS_SIGGES pol) && finite_nonneg (ADDR_BONUS_NLP pol) &&
  finite_nonneg (NLP_P_DEFAULT pol) && finite_nonneg (DCO_BASE_CONF pol) &&
  finite_nonneg (DCO_NO_ADDRESS_PENALTY pol) &&
  finite_nonneg (SIGGES_ONLY_BASE pol).

(** The model probability, when there is one, is finite and not negative. *)
Definition p_model_finite_nonneg (ev : option ResidenceEvidence) : bool :=
  match ev with
  | Some e =>
    match p_model e with
    | Some p => finite_nonneg p
    | None => true
    end
  | None => true
  end.

(** The model probability, when there is one, is in [0,1], as the port of
    the text-inference connector promises. *)
Definition p_model_in01 (ev : option ResidenceEvidence) : bool :=
  match ev with
  | Some e =>
    match p_model e with
    | Some p => Policy._in01 p
    | None => true
    end
  | None => true
  end.

End Num.
Export Num.

(** ** Running the scenarios of the specification *)

Module Scenario.

Definition nlp_05101 : ResidenceEvidence :=
  {| origin := NLP; comuna_code := Some "05101"; address := None;
     p_model := Some 0.8%float; model_ver := None; as_of_date := None |}.

Definition sigges_05101 : ResidenceEvidence :=
  {| origin := SIGGES; comuna_code := Some "05101"; address := Some "Av. X 100";
     p_model := None; model_ver := None; as_of_date := None |}.

Definition dco_05101 : ResidenceEvidence :=
  {| origin := DCO; comuna_code := Some "05101"; address := Some "Av. X 100";
     p_model := None; model_ver := None; as_of_date := None |}.

Definition dco_empty_comuna : ResidenceEvidence :=
  {| origin := DCO; comuna_code := Some ""; address := Some "Av. X 100";
     p_model := None; model_ver := None; as_of_date := None |}.

Definition nlp_nan : ResidenceEvidence :=
  {| origin := NLP; comuna_code := Some "05101"; address := None;
     p_model := Some nan; model_ver := None; as_of_date := None |}.

(** Text inference sure of nothing: probability 0.0, a valid one. *)
Definition nlp_zero : ResidenceEvidence :=
  {| origin := NLP; comuna_code := Some "05101"; address := None;
     p_model := Some 0%float; model_ver := None; as_of_date := None |}.

(** A policy out of range: the default one with [W_NLP = float("inf")]. *)
Definition policy_inf : Policy.t :=
  {| PREFER_NLP := true;
     W_NLP := infinity;
     BOOST_AGREE := 0.15;
     ADDR_BONUS_SIGGES := 0.05;
     ADDR_BONUS_NLP := 0.03;
     NLP_P_DEFAULT := 0.70;
     DCO_BASE_CONF := 0.98;
     DCO_NO_ADDRESS_PENALTY := 0.92;
     SIGGES_ONLY_BASE := 0.65 |}.

End Scenario.

(** ** Environments of the orchestrator *)

Module Orchestrator.
Import Imputer.

(** The environment with another claims-system connector. *)
Definition with_sigges (env : Env)
    (f : string -> string -> Z -> result (option ResidenceEvidence)) : Env :=
  {| dco_fetch := dco_fetch env;
     sigges_fetch := f;
     nlp_infer := nlp_infer env;
     normalizer := normalizer env;
     to_region_code := to_region_code env;
     to_comuna_name := to_comuna_name env;
     to_region_name := to_region_name env;
     global_soft_ms := global_soft_ms env;
     budget_dco_ms := budget_dco_ms env;
     budget_sigges_ms := budget_sigges_ms env;
     budget_nlp_ms := budget_nlp_ms env;
     elapsed_ms := elapsed_ms env |}.

(** The environment with another text-inference connector. *)
Definition with_nlp (env : Env)
    (f : list string -> Z -> result (option ResidenceEvidence)) : Env :=
  {| dco_fetch := dco_fetch env;
     sigges_fetch := sigges_fetch env;
     nlp_infer := f;
     normalizer := normalizer env;
     to_region_code := to_region_code env;
     to_comuna_name := to_comuna_name env;
     to_region_name := to_region_name env;
     global_soft_ms := global_soft_ms env;
     budget_dco_ms := budget_dco_ms env;
     budget_sigges_ms := budget_sigges_ms env;
     budget_nlp_ms := budget_nlp_ms env;
     elapsed_ms := elapsed_ms env |}.

(** A connector that finds nothing and raises nothing. *)
Definition absent_sigges (_ _ : string) (_ : Z) : result (option ResidenceEvidence) :=
  Return None.

Definition absent_nlp (_ : list string) (_ : Z) : result (option ResidenceEvidence) :=
  Return None.

(** The deadlines [decide] hands to the connectors. *)
Definition dco_deadline (env : Env) : Z :=
  Z.min (budget_dco_ms env) (remaining_ms env 0).

Definition sigges_deadline (env : Env) : Z :=
  Z.min (budget_sigges_ms env) (remaining_ms env 0).

Definition nlp_deadline (env : Env) : Z :=
  Z.min (budget_nlp_ms env) (remaining_ms env 1).

(** The normaliser, when there is one, returns on the address of [ev]. *)
Definition normalizer_returns (env : Env) (ev : ResidenceEvidence) : Prop :=
  forall normalize a,
    normalizer env = Some normalize -> address ev = Some a -> a <> "" ->
    returns (normalize a).

(** An environment of the timeout scenario: the claims system times out,
    text inference finds comuna "05101", the catalog knows it. *)
Definition timeout_env : Env :=
  {| dco_fetch := fun _ _ _ => Raise (mkExn NotFoundError "no DCO record");
     sigges_fetch := fun _ _ _ => Raise (mkExn TimeoutError "SIGGES timed out");
     nlp_infer := fun _ _ => Return (Some Scenario.nlp_05101);
     normalizer := None;
     to_region_code := fun _ => Return "05";
     to_comuna_name := fun _ => Return "Valparaiso";
     to_region_name := fun _ => Return "Valparaiso";
     global_soft_ms := Policy.GLOBAL_SOFT_MS;
     budget_dco_ms := Policy.BUDGET_DCO_MS;
     budget_sigges_ms := Policy.BUDGET_SIGGES_MS;
     budget_nlp_ms := Policy.BUDGET_NLP_MS;
     elapsed_ms := fun n => (250 * Z.of_nat n)%Z |}.

End Orchestrator.

(** ** validate_policy *)

Module PolicyCheck.
Import Policy.

(** The time constants of [policy.py] that [validate_policy] reads. *)
Record Budgets : Type := mkBudgets {
  soft_ms : Z;
  dco_ms : Z;
  sigges_ms : Z;
  nlp_ms : Z
}.

Definition default_budgets : Budgets :=
  {| soft_ms := GLOBAL_SOFT_MS;
     dco_ms := BUDGET_DCO_MS;
     sigges_ms := BUDGET_SIGGES_MS;
     nlp_ms := BUDGET_NLP_MS |}.

(** The list of the first loop, in its order. *)
Definition weight_items (pol : Policy.t) : list (string * float) :=
  [("W_NLP", W_NLP pol);
   ("BOOST_AGREE", BOOST_AGREE pol);
   ("ADDR_BONUS_SIGGES", ADDR_BONUS_SIGGES pol);
   ("ADDR_BONUS_NLP", ADDR_BONUS_NLP pol);
   ("NLP_P_DEFAULT", NLP_P_DEFAULT pol);
   ("DCO_BASE_CONF", DCO_BASE_CONF pol);
   ("DCO_NO_ADDRESS_PENALTY", DCO_NO_ADDRESS_PENALTY pol);
   ("SIGGES_ONLY_BASE", SIGGES_ONLY_BASE pol)].

(** The list of the second loop, in its order. *)
Definition time_items (b : Budgets) : list (string * Z) :=
  [("GLOBAL_SOFT_MS", soft_ms b);
   ("BUDGET_DCO_MS", dco_ms b);
   ("BUDGET_SIGGES_MS", sigges_ms b);
   ("BUDGET_NLP_MS", nlp_ms b)].

Section WithFormat.
(** [f"{val}"] for a float and for an int, as Python prints them. *)
Variable format_float : float -> string.
Variable format_int : Z -> string.

(** [for name, val in ...: if not _in01(val): raise ValueError(...)] *)
Fixpoint check_in01 (items : list (string * float)) : result unit :=
  match items with
  | [] => Return tt
  | (name, val) :: rest =>
    if negb (_in01 val) then
      Raise (mkExn ValueError
               (name ++ " debe estar en [0,1]; valor actual=" ++ format_float val))
    else check_in01 rest
  end.

(** [for name, val in ...: if not isinstance(val, int) or val <= 0: raise ...];
    the values are integers here, so only [val <= 0] can raise. *)
Fixpoint check_positive (items : list (string * Z)) : result unit :=
  match items with
  | [] => Return tt
  | (name, val) :: rest =>
    if (val <=? 0)%Z then
      Raise (mkExn ValueError
               (name ++ " debe ser int > 0; valor actual=" ++ format_int val))
    else check_positive rest
  end.

Definition validate_policy (pol : Policy.t) (b : Budgets) : result unit :=
  bind (check_in01 (weight_items pol)) (fun _ => check_positive (time_items b)).

End WithFormat.

(** Every time constant is positive. *)
Definition budgets_positive (b : Budgets) : bool :=
  forallb (fun v => (0 <? v)%Z) [soft_ms b; dco_ms b; sigges_ms b; nlp_ms b].

(** A policy with a NaN weight, and one with two constants out of range
    next to a time constant that is not positive. *)
Definition nan_policy : Policy.t :=
  {| PREFER_NLP := true;
     W_NLP := nan;
     BOOST_AGREE := 0.15;
     ADDR_BONUS_SIGGES := 0.05;
     ADDR_BONUS_NLP := 0.03;
     NLP_P_DEFAULT := 0.70;
     DCO_BASE_CONF := 0.98;
     DCO_NO_ADDRESS_PENALTY := 0.92;
     SIGGES_ONLY_BASE := 0.65 |}.

Definition bad_policy : Policy.t :=
  {| PREFER_NLP := true;
     W_NLP := 0.90;
     BOOST_AGREE := 1.5;
     ADDR_BONUS_SIGGES := 0.05;
     ADDR_BONUS_NLP := -1;
     NLP_P_DEFAULT := 0.70;
     DCO_BASE_CONF := 0.98;
     DCO_NO_ADDRESS_PENALTY := 0.92;
     SIGGES_ONLY_BASE := 0.65 |}.

Definition bad_budgets : Budgets :=
  {| soft_ms := 0; dco_ms := 200; sigges_ms := 200; nlp_ms := 900 |}.

End PolicyCheck.

(** ** The order of binary64 numbers *)

Module Order.

(** A number's place in the order, read in three steps: its class and
    sign, then its exponent, then its mantissa (the last two reversed for
    the negative numbers). *)
Definition key1 (x : spec_float) : Z :=
  match x with
  | S754_infinity true => -2
  | S754_finite true _ _ => -1
  | S754_zero _ => 0
  | S754_finite false _ _ => 1
  | S754_infinity false => 2
  | S754_nan => 0
  end.

Definition key2 (x : spec_float) : Z :=
  match x with
  | S754_finite true _ e => - e
  | S754_finite false _ e => e
  | _ => 0
  end.

Definition key3 (x : spec_float) : Z :=
  match x with
  | S754_finite true m _ => Z.neg m
  | S754_finite false m _ => Z.pos m
  | _ => 0
  end.

Definition key_le (a b : spec_float) : Prop :=
  (key1 a < key1 b \/
   (key1 a = key1 b /\
    (key2 a < key2 b \/ (key2 a = key2 b /\ key3 a <= key3 b))))%Z.

Definition key_lt (a b : spec_float) : Prop :=
  (key1 a < key1 b \/
   (key1 a = key1 b /\
    (key2 a < key2 b \/ (key2 a = key2 b /\ key3 a < key3 b))))%Z.

End Order.

(** ** More environments of the orchestrator *)

Module Orchestrator2.
Import Imputer.

(** The environment with another authoritative-registry connector. *)
Definition with_dco (env : Env)
    (f : string -> string -> Z -> result (option ResidenceEvidence)) : Env :=
  {| dco_fetch := f;
     sigges_fetch := sigges_fetch env;
     nlp_infer := nlp_infer env;
     normalizer := normalizer env;
     to_region_code := to_region_code env;
     to_comuna_name := to_comuna_name env;
     to_region_name := to_region_name env;
     global_soft_ms := global_soft_ms env;
     budget_dco_ms := budget_dco_ms env;
     budget_sigges_ms := budget_sigges_ms env;
     budget_nlp_ms := budget_nlp_ms env;
     elapsed_ms := elapsed_ms env |}.

(** The evidence with another address. *)
Definition with_address (ev : ResidenceEvidence) (a : option string)
  : ResidenceEvidence :=
  {| origin := origin ev;
     comuna_code := comuna_code ev;
     address := a;
     p_model := p_model ev;
     model_ver := model_ver ev;
     as_of_date := as_of_date ev |}.

(** The connector returned an evidence that differs from [ev] in its
    address at most. *)
Definition same_but_address (ev ev' : ResidenceEvidence) : Prop :=
  origin ev' = origin ev /\ comuna_code ev' = comuna_code ev /\
  p_model ev' = p_model ev /\ model_ver ev' = model_ver ev /\
  as_of_date ev' = as_of_date ev.

(** What the alive path gathers from the claims system: the evidence and
    the quality hint. *)
Definition sigges_result (env : Env) (rut dv : string)
  : option ResidenceEvidence * option AddressQuality :=
  _safe_fetch_sigges_with_quality env rut dv (Orchestrator.sigges_deadline env).

(** What the alive path gathers from text inference; nothing when both
    texts are empty. *)
Definition nlp_result (env : Env) (ges_text noges_text : option string)
  : option ResidenceEvidence * option AddressQuality :=
  match nonempty_texts ges_text noges_text with
  | [] => (None, None)
  | _ :: _ =>
    _safe_infer_nlp_with_quality env (nonempty_texts ges_text noges_text)
      (Orchestrator.nlp_deadline env)
  end.

(** The exception comes from one of the three catalog lookups. *)
Definition raised_by_catalog (env : Env) (e : exn) : Prop :=
  (exists c, to_region_code env c = Raise e) \/
  (exists c, to_comuna_name env c = Raise e) \/
  (exists rc, to_region_name env rc = Raise e).

(** A registry that knows comuna "05101", and a normaliser that finds
    nothing to keep of an address. *)
Definition registry_env : Env :=
  {| dco_fetch := fun _ _ _ => Return (Some Scenario.dco_05101);
     sigges_fetch := fun _ _ _ => Return (Some Scenario.sigges_05101);
     nlp_infer := fun _ _ => Raise (mkExn DataQualityError "no text");
     normalizer := Some (fun _ => Return ("", UNKNOWN));
     to_region_code := fun _ => Return "05";
     to_comuna_name := fun _ => Return "Valparaiso";
     to_region_name := fun _ => Return "Valparaiso";
     global_soft_ms := Policy.GLOBAL_SOFT_MS;
     budget_dco_ms := Policy.BUDGET_DCO_MS;
     budget_sigges_ms := Policy.BUDGET_SIGGES_MS;
     budget_nlp_ms := Policy.BUDGET_NLP_MS;
     elapsed_ms := fun n => (2000 * Z.of_nat (S n))%Z |}.

(** The same with a normaliser that fails. *)
Definition failing_normalizer_env : Env :=
  {| dco_fetch := fun _ _ _ => Return (Some Scenario.dco_05101);
     sigges_fetch := fun _ _ _ => Return (Some Scenario.sigges_05101);
     nlp_infer := fun _ _ => Raise (mkExn DataQualityError "no text");
     normalizer := Some (fun _ => Raise (mkExn DataQualityError "bad address"));
     to_region_code := fun _ => Return "05";
     to_comuna_name := fun _ => Return "Valparaiso";
     to_region_name := fun _ => Return "Valparaiso";
     global_soft_ms := Policy.GLOBAL_SOFT_MS;
     budget_dco_ms := Policy.BUDGET_DCO_MS;
     budget_sigges_ms := Policy.BUDGET_SIGGES_MS;
     budget_nlp_ms := Policy.BUDGET_NLP_MS;
     elapsed_ms := fun n => (250 * Z.of_nat n)%Z |}.

(** A catalog that does not know the comuna. *)
Definition unknown_comuna_env : Env :=
  {| dco_fetch := fun _ _ _ => Return (Some Scenario.dco_05101);
     sigges_fetch := fun _ _ _ => Return (Some Scenario.sigges_05101);
     nlp_infer := fun _ _ => Raise (mkExn DataQualityError "no text");
     normalizer := None;
     to_region_code := fun _ => Raise (mkExn DataQualityError "unknown comuna");
     to_comuna_name := fun _ => Return "Valparaiso";
     to_region_name := fun _ => Return "Valparaiso";
     global_soft_ms := Policy.GLOBAL_SOFT_MS;
     budget_dco_ms := Policy.BUDGET_DCO_MS;
     budget_sigges_ms := Policy.BUDGET_SIGGES_MS;
     budget_nlp_ms := Policy.BUDGET_NLP_MS;
     elapsed_ms := fun n => (250 * Z.of_nat n)%Z |}.

End Orchestrator2.

(** The two directions of a comparison read through the keys. *)
Ltac by_keys :=
  split;
  [ intros H; try discriminate H; repeat split; try discriminate; lia
  | intros (Ha & Hb & H); try congruence; try reflexivity; lia ].

(** ** Tactics *)

(** Every shape of an optional evidence as far as its comuna code goes:
    no evidence, no code, the empty code, a non-empty code. *)
Ltac case_evidence ev :=
  destruct ev as [[? [[|? ?]|] ? ? ? ?]|].

(** The eight constants of a policy of finite, non-negative constants. *)
Ltac policy_constants H :=
  unfold policy_finite_nonneg in H;
  do 7 (apply andb_prop in H; let H' := fresh "Hk" in destruct H as [H H']).

(** * Properties *)

Lemma quality_weight_refines (hint : option AddressQuality) (source : Source)
    (addr : option string) :
  match hint with
  | Some _ => quality_to_weight hint
  | None => default_addr_weight source addr
  end = Spec.quality_weight hint source addr.
Proof.
  destruct hint as [[]|]; simpl; try reflexivity.
  unfold default_addr_weight.
  destruct addr as [[|a s]|]; simpl; try reflexivity.
  destruct source; reflexivity.
Qed.

(** ** Branch selection of [decide_alive] *)

Lemma has_comuna_truthy_comuna (ev : option ResidenceEvidence) :
  Spec.has_comuna ev = false <-> truthy_comuna ev = None.
Proof.
  case_evidence ev; simpl; split; congruence.
Qed.

Lemma has_comuna_code (ev : option ResidenceEvidence) :
  Spec.has_comuna ev = true ->
  exists e c, ev = Some e /\ comuna_code e = Some c /\ c <> "" /\
              truthy_comuna ev = Some c.
Proof.
  case_evidence ev; simpl; try discriminate.
  intros _. eexists _, _. repeat split. discriminate.
Qed.

(** Without a usable text-inference comuna the text-inference evidence is
    not looked at any further. *)
Lemma decide_alive_without_nlp (pol : Policy.t)
    (nlp_ev sigges_ev : option ResidenceEvidence)
    (q_sigges q_nlp : option AddressQuality) :
  Spec.has_comuna nlp_ev = false ->
  decide_alive pol nlp_ev sigges_ev q_sigges q_nlp
    = decide_alive pol None sigges_ev q_sigges None.
Proof.
  case_evidence nlp_ev; simpl; try discriminate; reflexivity.
Qed.

Lemma decide_alive_sigges_branch (pol : Policy.t)
    (nlp_ev : option ResidenceEvidence) (sg : ResidenceEvidence) (c : string)
    (q_sigges q_nlp : option AddressQuality) :
  Spec.has_comuna nlp_ev = false ->
  comuna_code sg = Some c -> c <> "" ->
  decide_alive pol nlp_ev (Some sg) q_sigges q_nlp =
  Return {| core_comuna_code := c;
            core_address := or_empty (address sg);
            core_confidence :=
              clamp (SIGGES_ONLY_BASE pol +
                     ADDR_BONUS_SIGGES pol *
                     Spec.quality_weight q_sigges SIGGES (address sg));
            core_sources := [SIGGES];
            core_rule_path := "ALIVE_SIGGES_ONLY";
            core_tie_break_reason := None |}.
Proof.
  intros Hn Hc Hne. rewrite (decide_alive_without_nlp _ _ _ _ _ Hn).
  unfold decide_alive. simpl. rewrite Hc.
  destruct c as [|a s]; [congruence|]. simpl.
  rewrite quality_weight_refines. reflexivity.
Qed.

Lemma decide_alive_no_comuna (pol : Policy.t)
    (nlp_ev sigges_ev : option ResidenceEvidence)
    (q_sigges q_nlp : option AddressQuality) :
  Spec.has_comuna nlp_ev = false -> Spec.has_comuna sigges_ev = false ->
  decide_alive pol nlp_ev sigges_ev q_sigges q_nlp
    = Raise (mkExn ValueError msg_alive).
Proof.
  intros Hn Hs. rewrite (decide_alive_without_nlp _ _ _ _ _ Hn).
  case_evidence sigges_ev; simpl in *; try discriminate; reflexivity.
Qed.

Lemma decide_alive_returns (pol : Policy.t)
    (nlp_ev sigges_ev : option ResidenceEvidence)
    (q_sigges q_nlp : option AddressQuality) :
  Spec.has_comuna nlp_ev = true \/ Spec.has_comuna sigges_ev = true ->
  exists d, decide_alive pol nlp_ev sigges_ev q_sigges q_nlp = Return d.
Proof.
  destruct (Spec.has_comuna nlp_ev) eqn:Hn.
  - intros _. revert Hn. case_evidence nlp_ev; simpl; try discriminate.
    intros _. unfold decide_alive. simpl.
    destruct (agreement _ _); eexists; reflexivity.
  - intros [H|H]; [discriminate|].
    destruct (has_comuna_code _ H) as (sg & c & -> & Hc & Hne & _).
    eexists. apply decide_alive_sigges_branch; eassumption.
Qed.

(** C3: [decide_alive] raises the insufficient-evidence [ValueError] if and
    only if neither the text-inference evidence nor the claims evidence
    carries a comuna code (a code that is a non-empty string); in that case
    no decision is returned, whatever the policy and the quality hints. *)
Theorem decide_alive_raises_iff_no_comuna
    (pol : Policy.t) (nlp_ev sigges_ev : option ResidenceEvidence)
    (q_sigges q_nlp : option AddressQuality) :
  (raises_value_error (decide_alive pol nlp_ev sigges_ev q_sigges q_nlp) <->
   Spec.has_comuna nlp_ev = false /\ Spec.has_comuna sigges_ev = false) /\
  (Spec.has_comuna nlp_ev = false -> Spec.has_comuna sigges_ev = false ->
   decide_alive pol nlp_ev sigges_ev q_sigges q_nlp
     = Raise (mkExn ValueError msg_alive) /\
   forall d, decide_alive pol nlp_ev sigges_ev q_sigges q_nlp <> Return d).
Proof.
  split.
  - split.
    + intros [m Hm].
      destruct (Spec.has_comuna nlp_ev) eqn:Hn;
        [|destruct (Spec.has_comuna sigges_ev) eqn:Hs]; auto;
        destruct (decide_alive_returns pol nlp_ev sigges_ev q_sigges q_nlp)
          as [d Hd]; auto; congruence.
    + intros [Hn Hs]. exists msg_alive. now apply decide_alive_no_comuna.
  - intros Hn Hs.
    rewrite (decide_alive_no_comuna pol _ _ q_sigges q_nlp Hn Hs).
    split; [reflexivity | discriminate].
Qed.

Lemma decide_alive_raises_iff_no_comuna_witness :
  Spec.has_comuna None = false /\
  Spec.has_comuna (Some (mkEvidence SIGGES (Some "") (Some "Av. X 100") None None None)) = false /\
  decide_alive Policy.default None
    (Some (mkEvidence SIGGES (Some "") (Some "Av. X 100") None None None))
    (Some EXACT) None = Raise (mkExn ValueError msg_alive).
Proof.
  split; [reflexivity|]. split; [reflexivity|].
  apply (decide_alive_raises_iff_no_comuna Policy.default None
           (Some (mkEvidence SIGGES (Some "") (Some "Av. X 100") None None None))
           (Some EXACT) None); reflexivity.
Defined.

(** C6: when the text-inference evidence carries no comuna code and the
    claims evidence carries one, [decide_alive] returns the comuna and the
    address of the claims evidence, the confidence
    [clamp(SIGGES_ONLY_BASE + ADDR_BONUS_SIGGES * quality_weight(address))],
    the sources [[SIGGES]] and the rule path ["ALIVE_SIGGES_ONLY"]. *)
Theorem decide_alive_sigges_only
    (pol : Policy.t) (nlp_ev sigges_ev : option ResidenceEvidence)
    (q_sigges q_nlp : option AddressQuality) :
  Spec.has_comuna nlp_ev = false ->
  Spec.has_comuna sigges_ev = true ->
  exists sg c,
    sigges_ev = Some sg /\ comuna_code sg = Some c /\
    decide_alive pol nlp_ev sigges_ev q_sigges q_nlp =
    Return {| core_comuna_code := c;
              core_address := or_empty (address sg);
              core_confidence :=
                clamp (SIGGES_ONLY_BASE pol +
                       ADDR_BONUS_SIGGES pol *
                       Spec.quality_weight q_sigges SIGGES (address sg));
              core_sources := [SIGGES];
              core_rule_path := "ALIVE_SIGGES_ONLY";
              core_tie_break_reason := None |}.
Proof.
  intros Hn Hs.
  destruct (has_comuna_code _ Hs) as (sg & c & -> & Hc & Hne & _).
  exists sg, c. repeat split; trivial.
  now apply decide_alive_sigges_branch.
Qed.

Lemma decide_alive_sigges_only_witness :
  exists d,
    decide_alive Policy.default
      (Some (mkEvidence NLP None (Some "Calle 1") (Some 0.9%float) None None))
      (Some Scenario.sigges_05101) None None = Return d /\
    core_comuna_code d = "05101" /\ core_address d = "Av. X 100" /\
    core_sources d = [SIGGES] /\
    core_confidence d = (0.65 + 0.05 * 0.7)%float.
Proof.
  destruct (decide_alive_sigges_only Policy.default
              (Some (mkEvidence NLP None (Some "Calle 1") (Some 0.9%float) None None))
              (Some Scenario.sigges_05101) None None eq_refl eq_refl)
    as (sg & c & Hsg & Hc & Hd).
  injection Hsg as <-. injection Hc as <-.
  eexists. split; [exact Hd|]. repeat split.
Defined.

(** C10: a text-inference evidence whose comuna code is the empty string
    is treated exactly as one without a comuna code: the decision is the
    claims-only one when the claims evidence carries a comuna code, the
    insufficient-evidence error is raised otherwise, and no returned
    decision has the empty comuna code. *)
Theorem decide_alive_empty_nlp_comuna
    (pol : Policy.t) (nlp : ResidenceEvidence)
    (sigges_ev : option ResidenceEvidence)
    (q_sigges q_nlp : option AddressQuality) :
  comuna_code nlp = Some "" ->
  decide_alive pol (Some nlp) sigges_ev q_sigges q_nlp
    = decide_alive pol None sigges_ev q_sigges q_nlp /\
  decide_alive pol (Some nlp) sigges_ev q_sigges q_nlp
    = decide_alive pol
        (Some (mkEvidence (origin nlp) None (address nlp) (p_model nlp)
                 (model_ver nlp) (as_of_date nlp)))
        sigges_ev q_sigges q_nlp /\
  (Spec.has_comuna sigges_ev = true ->
   exists d, decide_alive pol (Some nlp) sigges_ev q_sigges q_nlp = Return d /\
             core_rule_path d = "ALIVE_SIGGES_ONLY" /\
             core_sources d = [SIGGES] /\
             Some (core_comuna_code d) = truthy_comuna sigges_ev) /\
  (Spec.has_comuna sigges_ev = false ->
   decide_alive pol (Some nlp) sigges_ev q_sigges q_nlp
     = Raise (mkExn ValueError msg_alive)) /\
  (forall d, decide_alive pol (Some nlp) sigges_ev q_sigges q_nlp = Return d ->
             core_comuna_code d <> "").
Proof.
  intros Hc.
  assert (Hn : Spec.has_comuna (Some nlp) = false) by (simpl; now rewrite Hc).
  assert (Hs : forall d,
             Spec.has_comuna sigges_ev = true ->
             decide_alive pol (Some nlp) sigges_ev q_sigges q_nlp = Return d ->
             core_rule_path d = "ALIVE_SIGGES_ONLY" /\
             core_sources d = [SIGGES] /\
             Some (core_comuna_code d) = truthy_comuna sigges_ev /\
             core_comuna_code d <> "").
  { intros d H Hd.
    destruct (has_comuna_code _ H) as (sg & c & -> & Hsc & Hne & Ht).
    rewrite (decide_alive_sigges_branch pol _ sg c q_sigges q_nlp Hn Hsc Hne) in Hd.
    injection Hd as <-. rewrite Ht. simpl. auto. }
  repeat split.
  - rewrite (decide_alive_without_nlp _ _ _ _ q_nlp Hn).
    symmetry. now apply decide_alive_without_nlp.
  - rewrite (decide_alive_without_nlp _ _ _ _ q_nlp Hn).
    symmetry. now apply decide_alive_without_nlp.
  - intros H.
    destruct (decide_alive_returns pol (Some nlp) sigges_ev q_sigges q_nlp)
      as [d Hd]; [now right|].
    exists d. split; [exact Hd|]. destruct (Hs d H Hd) as (? & ? & ? & _). auto.
  - intros H. now apply decide_alive_no_comuna.
  - intros d Hd.
    destruct (Spec.has_comuna sigges_ev) eqn:H.
    + now destruct (Hs d eq_refl Hd) as (_ & _ & _ & ?).
    + rewrite (decide_alive_no_comuna pol _ _ q_sigges q_nlp Hn H) in Hd.
      discriminate.
Qed.

Lemma decide_alive_empty_nlp_comuna_witness :
  decide_alive Policy.default
    (Some (mkEvidence NLP (Some "") (Some "Calle 1") (Some 0.9%float) None None))
    (Some Scenario.sigges_05101) None None
  = decide_alive Policy.default None (Some Scenario.sigges_05101) None None.
Proof.
  apply (decide_alive_empty_nlp_comuna Policy.default
           (mkEvidence NLP (Some "") (Some "Calle 1") (Some 0.9%float) None None)
           (Some Scenario.sigges_05101) None None eq_refl).
Defined.

(** ** Zero as a summand *)

(** [x + 0.0] is [x], except that [-0.0 + 0.0] is [0.0]. *)
Lemma add_zero_r (x : float) :
  Prim2SF x <> S754_zero true -> (x + 0)%float = x.
Proof.
  intros Hx. apply Prim2SF_inj. rewrite add_spec.
  change (Prim2SF 0) with (S754_zero false).
  destruct (Prim2SF x) as [[]| | |]; try reflexivity. congruence.
Qed.

Lemma neg_zero_Prim2SF (x : float) :
  Prim2SF x = S754_zero true -> x = (-0)%float.
Proof.
  intros Hx. apply Prim2SF_inj. rewrite Hx. reflexivity.
Qed.

Lemma spec_float_eq_dec (a b : spec_float) : {a = b} + {a <> b}.
Proof.
  decide equality; first [apply Bool.bool_dec | apply Z.eq_dec | apply Pos.eq_dec].
Qed.

(** A zero boost can be left out of the sum when the address bonus is one of
    the default policy's: none of them is [-0.0]. *)
Lemma zero_boost_default (x : float) (hint : option AddressQuality)
    (source : Source) (addr : option string) (bonus : float) :
  bonus = 0.05%float \/ bonus = 0.03%float ->
  (x + 0 + bonus * Spec.quality_weight hint source addr
   = x + bonus * Spec.quality_weight hint source addr)%float.
Proof.
  intros Hb.
  destruct (spec_float_eq_dec (Prim2SF x) (S754_zero true)) as [E|E].
  - rewrite (neg_zero_Prim2SF x E).
    destruct Hb as [-> | ->];
      destruct hint as [[]|]; simpl; try reflexivity;
      destruct addr as [[|a s]|]; try reflexivity;
      destruct source; reflexivity.
  - now rewrite (add_zero_r x E).
Qed.

(** ** The text-inference branch *)

Lemma opt_str_eqb_eq (a b : option string) :
  opt_str_eqb a b = true <-> a = b.
Proof.
  destruct a as [x|], b as [y|]; simpl; split; try congruence.
  - intros H. apply String.eqb_eq in H. congruence.
  - intros H. injection H as ->. apply String.eqb_refl.
Qed.

(** The agreement test: the claims evidence is there and its comuna code
    equals the text-inference one. *)
Lemma agreement_true (sigges_ev : option ResidenceEvidence) (c : option string) :
  agreement sigges_ev c = true <->
  exists sg, sigges_ev = Some sg /\ comuna_code sg = c.
Proof.
  destruct sigges_ev as [sg|]; simpl.
  - rewrite opt_str_eqb_eq. split; [eauto|]. intros (s & E & H). congruence.
  - split; [discriminate|]. intros (s & E & _). discriminate.
Qed.

Lemma agreement_false (sigges_ev : option ResidenceEvidence) (c : option string) :
  agreement sigges_ev c = false <->
  sigges_ev = None \/ exists sg, sigges_ev = Some sg /\ comuna_code sg <> c.
Proof.
  destruct (agreement sigges_ev c) eqn:A.
  - apply agreement_true in A. destruct A as (sg & -> & H).
    split; [discriminate|]. intros [E|(s & E & N)]; congruence.
  - split; [intros _|reflexivity].
    destruct sigges_ev as [sg|]; [right|now left].
    exists sg. split; [reflexivity|]. intros H.
    assert (agreement (Some sg) c = true) by (apply agreement_true; eauto).
    congruence.
Qed.

Lemma decide_alive_agree (pol : Policy.t) (nlp sg : ResidenceEvidence)
    (c : string) (q_sigges q_nlp : option AddressQuality) :
  comuna_code nlp = Some c -> c <> "" -> comuna_code sg = Some c ->
  decide_alive pol (Some nlp) (Some sg) q_sigges q_nlp =
  Return {| core_comuna_code := c;
            core_address := or_empty (address sg);
            core_confidence :=
              clamp (W_NLP pol * p_or_default pol nlp + BOOST_AGREE pol +
                     ADDR_BONUS_SIGGES pol *
                     Spec.quality_weight q_sigges SIGGES (address sg));
            core_sources := [NLP; SIGGES];
            core_rule_path := "ALIVE_NLP_AGREE_SIGGES";
            core_tie_break_reason := None |}.
Proof.
  intros Hc Hne Hs. unfold decide_alive. simpl. rewrite Hc.
  destruct c as [|a s]; [congruence|]. simpl. rewrite Hs. simpl.
  rewrite String.eqb_refl, Ascii.eqb_refl.
  rewrite quality_weight_refines. reflexivity.
Qed.

Lemma decide_alive_disagree_branch (pol : Policy.t) (nlp : ResidenceEvidence)
    (sigges_ev : option ResidenceEvidence)
    (c : string) (q_sigges q_nlp : option AddressQuality) :
  comuna_code nlp = Some c -> c <> "" ->
  agreement sigges_ev (Some c) = false ->
  decide_alive pol (Some nlp) sigges_ev q_sigges q_nlp =
  Return {| core_comuna_code := c;
            core_address := or_empty (address nlp);
            core_confidence :=
              clamp (W_NLP pol * p_or_default pol nlp + 0 +
                     ADDR_BONUS_NLP pol *
                     Spec.quality_weight q_nlp NLP (address nlp));
            core_sources := [NLP];
            core_rule_path := "ALIVE_NLP_DISAGREE";
            core_tie_break_reason := None |}.
Proof.
  intros Hc Hne Ha. unfold decide_alive. simpl. rewrite Hc.
  destruct c as [|a s]; [congruence|]. cbv iota beta. simpl truthy_str. cbv iota.
  rewrite Ha. cbv iota beta.
  rewrite quality_weight_refines. reflexivity.
Qed.

(** Two floats told apart by a test are different. *)
Lemma float_apart (f : float -> bool) (x y : float) :
  f x <> f y -> x <> y.
Proof.
  intros H E. apply H. now rewrite E.
Qed.

(** C4 (as stated): the agreement scenario does not give confidence 1.0. *)
Lemma agreement_scenario_confidence_not_one :
  ~ (exists d,
       decide_alive Policy.default (Some Scenario.nlp_05101)
         (Some Scenario.sigges_05101) (Some EXACT) None = Return d /\
       core_sources d = [NLP; SIGGES] /\
       core_rule_path d = "ALIVE_NLP_AGREE_SIGGES" /\
       core_address d = "Av. X 100" /\
       core_confidence d = 1%float).
Proof.
  intros (d & Hd & _ & _ & _ & Hc).
  vm_compute in Hd. injection Hd as <-. simpl in Hc.
  revert Hc. apply (float_apart (fun z => z <? 1)%float). discriminate.
Qed.

(** C4 (amended): in the agreement scenario (text-inference comuna "05101"
    with model probability 0.8, claims comuna "05101" with address
    "Av. X 100" and quality hint EXACT) [decide_alive] detects the agreement
    and returns the sources [[NLP; SIGGES]], the rule path
    ["ALIVE_NLP_AGREE_SIGGES"], the address of the claims evidence and the
    confidence [clamp(0.90 * 0.8 + 0.15 + 0.05 * 1.0)], which is
    0.9200000000000002: below 1.0, so the clamp leaves it as it is. *)
Theorem agreement_scenario
    (nlp sg : ResidenceEvidence) (q_nlp : option AddressQuality) :
  comuna_code nlp = Some "05101" -> p_model nlp = Some 0.8%float ->
  comuna_code sg = Some "05101" -> address sg = Some "Av. X 100" ->
  agreement (Some sg) (comuna_code nlp) = true /\
  decide_alive Policy.default (Some nlp) (Some sg) (Some EXACT) q_nlp =
  Return {| core_comuna_code := "05101";
            core_address := "Av. X 100";
            core_confidence := 0.9200000000000002;
            core_sources := [NLP; SIGGES];
            core_rule_path := "ALIVE_NLP_AGREE_SIGGES";
            core_tie_break_reason := None |} /\
  clamp (0.90 * 0.8 + 0.15 + 0.05 * 1.0) = 0.9200000000000002%float /\
  (0.90 * 0.8 + 0.15 + 0.05 * 1.0 = 0.9200000000000002)%float /\
  (0.9200000000000002 <? 1)%float = true.
Proof.
  intros Hn Hp Hs Ha. split.
  - apply agreement_true. exists sg. split; congruence.
  - split; [|repeat split].
    rewrite (decide_alive_agree Policy.default nlp sg "05101" (Some EXACT) q_nlp Hn)
      by (discriminate || assumption).
    unfold p_or_default. rewrite Hp, Ha. reflexivity.
Qed.

Lemma agreement_scenario_witness :
  decide_alive Policy.default (Some Scenario.nlp_05101)
    (Some Scenario.sigges_05101) (Some EXACT) None =
  Return {| core_comuna_code := "05101";
            core_address := "Av. X 100";
            core_confidence := 0.9200000000000002;
            core_sources := [NLP; SIGGES];
            core_rule_path := "ALIVE_NLP_AGREE_SIGGES";
            core_tie_break_reason := None |}.
Proof.
  apply (agreement_scenario Scenario.nlp_05101 Scenario.sigges_05101 None
           eq_refl eq_refl eq_refl eq_refl).
Defined.

(** C5 (as stated): with comuna "05101", probability 0.8, no address and no
    claims evidence, the confidence is not the float 0.72. *)
Lemma nlp_only_scenario_confidence_not_0_72 :
  ~ (exists d,
       decide_alive Policy.default (Some Scenario.nlp_05101) None None None
         = Return d /\
       core_sources d = [NLP] /\
       core_rule_path d = "ALIVE_NLP_DISAGREE" /\
       core_confidence d = 0.72%float).
Proof.
  intros (d & Hd & _ & _ & Hc).
  vm_compute in Hd. injection Hd as <-. simpl in Hc.
  revert Hc. apply (float_apart (fun z => z =? 0.72)%float). discriminate.
Qed.

(** C5 (amended): for a text-inference evidence with a comuna code, when
    the claims evidence is absent or carries a different comuna code,
    [decide_alive] returns the sources [[NLP]], the rule path
    ["ALIVE_NLP_DISAGREE"], the text-inference address (or [""]) and the
    confidence [clamp(W_NLP * p + 0.0 + ADDR_BONUS_NLP * quality_weight)],
    [p] being the model probability or [NLP_P_DEFAULT]; under the default
    policy the zero boost can be left out of the sum.  For comuna "05101",
    probability 0.8, no address and no claims evidence the confidence is
    [clamp(0.90 * 0.8 + 0 + 0)], the binary64 number 0.7200000000000001,
    the successor of 0.72. *)
Theorem decide_alive_disagree :
  (forall (pol : Policy.t) (nlp : ResidenceEvidence) (c : string)
          (sigges_ev : option ResidenceEvidence)
          (q_sigges q_nlp : option AddressQuality),
      comuna_code nlp = Some c -> c <> "" ->
      (sigges_ev = None \/
       exists sg, sigges_ev = Some sg /\ comuna_code sg <> Some c) ->
      decide_alive pol (Some nlp) sigges_ev q_sigges q_nlp =
      Return {| core_comuna_code := c;
                core_address := or_empty (address nlp);
                core_confidence :=
                  clamp (W_NLP pol * p_or_default pol nlp + 0 +
                         ADDR_BONUS_NLP pol *
                         Spec.quality_weight q_nlp NLP (address nlp));
                core_sources := [NLP];
                core_rule_path := "ALIVE_NLP_DISAGREE";
                core_tie_break_reason := None |} /\
      (pol = Policy.default ->
       (W_NLP pol * p_or_default pol nlp + 0 +
        ADDR_BONUS_NLP pol * Spec.quality_weight q_nlp NLP (address nlp)
        = W_NLP pol * p_or_default pol nlp +
          ADDR_BONUS_NLP pol * Spec.quality_weight q_nlp NLP (address nlp))%float)) /\
  decide_alive Policy.default (Some Scenario.nlp_05101) None None None =
  Return {| core_comuna_code := "05101";
            core_address := "";
            core_confidence := 0.7200000000000001;
            core_sources := [NLP];
            core_rule_path := "ALIVE_NLP_DISAGREE";
            core_tie_break_reason := None |} /\
  clamp (0.90 * 0.8 + 0 + 0) = 0.7200000000000001%float /\
  next_up 0.72 = 0.7200000000000001%float.
Proof.
  split; [|repeat split].
  intros pol nlp c sigges_ev q_sigges q_nlp Hc Hne Hd. split.
  - apply decide_alive_disagree_branch; trivial. now apply agreement_false.
  - intros ->. apply zero_boost_default. now right.
Qed.

Lemma decide_alive_disagree_witness :
  decide_alive Policy.default
    (Some (mkEvidence NLP (Some "13101") (Some "Calle 1") None None None))
    (Some (mkEvidence SIGGES (Some "13102") (Some "Calle 2") None None None))
    (Some EXACT) (Some PARTIAL) =
  Return {| core_comuna_code := "13101";
            core_address := "Calle 1";
            core_confidence := clamp (0.90 * 0.70 + 0 + 0.03 * 0.7);
            core_sources := [NLP];
            core_rule_path := "ALIVE_NLP_DISAGREE";
            core_tie_break_reason := None |}.
Proof.
  apply (proj1 (proj1 decide_alive_disagree Policy.default
    (mkEvidence NLP (Some "13101") (Some "Calle 1") None None None) "13101"
    (Some (mkEvidence SIGGES (Some "13102") (Some "Calle 2") None None None))
    (Some EXACT) (Some PARTIAL) eq_refl
    ltac:(discriminate)
    ltac:(right; eexists; split; [reflexivity | discriminate]))).
Defined.

(** The three ways [decide_alive] returns, told apart by the rule path;
    none of them with an empty comuna code. *)
Lemma decide_alive_cases (pol : Policy.t)
    (nlp_ev sigges_ev : option ResidenceEvidence)
    (q_sigges q_nlp : option AddressQuality) (d : DecisionCore) :
  decide_alive pol nlp_ev sigges_ev q_sigges q_nlp = Return d ->
  core_comuna_code d <> "" /\
  ((core_rule_path d = "ALIVE_NLP_AGREE_SIGGES" /\
   core_confidence d =
     clamp (W_NLP pol * p_of pol nlp_ev + BOOST_AGREE pol +
            ADDR_BONUS_SIGGES pol *
            Spec.quality_weight q_sigges SIGGES (address_of sigges_ev))) \/
  (core_rule_path d = "ALIVE_NLP_DISAGREE" /\
   core_confidence d =
     clamp (W_NLP pol * p_of pol nlp_ev + 0 +
            ADDR_BONUS_NLP pol *
            Spec.quality_weight q_nlp NLP (address_of nlp_ev))) \/
  (core_rule_path d = "ALIVE_SIGGES_ONLY" /\
   core_confidence d =
     clamp (SIGGES_ONLY_BASE pol +
            ADDR_BONUS_SIGGES pol *
            Spec.quality_weight q_sigges SIGGES (address_of sigges_ev)))).
Proof.
  intros Hd.
  destruct (Spec.has_comuna nlp_ev) eqn:Hn.
  - destruct (has_comuna_code _ Hn) as (nlp & c & -> & Hc & Hne & _).
    destruct (agreement sigges_ev (Some c)) eqn:Ha.
    + apply agreement_true in Ha. destruct Ha as (sg & -> & Hs).
      rewrite (decide_alive_agree pol nlp sg c q_sigges q_nlp Hc Hne Hs) in Hd.
      injection Hd as <-. split; [exact Hne|]. left. split; reflexivity.
    + rewrite (decide_alive_disagree_branch pol nlp sigges_ev c q_sigges q_nlp
                 Hc Hne Ha) in Hd.
      injection Hd as <-. split; [exact Hne|]. right. left. split; reflexivity.
  - destruct (Spec.has_comuna sigges_ev) eqn:Hs.
    + destruct (has_comuna_code _ Hs) as (sg & c & -> & Hc & Hne & _).
      rewrite (decide_alive_sigges_branch pol nlp_ev sg c q_sigges q_nlp
                 Hn Hc Hne) in Hd.
      injection Hd as <-. split; [exact Hne|]. right. right. split; reflexivity.
    + rewrite (decide_alive_no_comuna pol _ _ q_sigges q_nlp Hn Hs) in Hd.
      discriminate.
Qed.

(** ** The address-quality weight *)

Lemma quality_weight_as_specified (hint : option AddressQuality)
    (source : Source) (addr : option string) :
  weight_as_specified hint source addr (Spec.quality_weight hint source addr).
Proof.
  rewrite <- quality_weight_refines.
  destruct hint; split; congruence.
Qed.

(** C9: the weight behind every address bonus of [decide_alive] is
    [quality_to_weight(hint)] when a hint is passed (EXACT 1.0, PARTIAL 0.7,
    UNKNOWN 0.4, and 0.0 for no hint) and [default_addr_weight] otherwise:
    0.0 without address text, else 0.7 for SIGGES and 0.5 for NLP. *)
Theorem decide_alive_address_weight :
  (quality_to_weight (Some EXACT) = 1.0%float /\
   quality_to_weight (Some PARTIAL) = 0.7%float /\
   quality_to_weight (Some UNKNOWN) = 0.4%float /\
   quality_to_weight None = 0.0%float) /\
  (forall (source : Source) (addr : option string),
      (truthy addr = false -> default_addr_weight source addr = 0.0%float) /\
      (truthy addr = true -> default_addr_weight SIGGES addr = 0.7%float) /\
      (truthy addr = true -> default_addr_weight NLP addr = 0.5%float)) /\
  (forall (pol : Policy.t) (nlp_ev sigges_ev : option ResidenceEvidence)
          (q_sigges q_nlp : option AddressQuality) (d : DecisionCore),
      decide_alive pol nlp_ev sigges_ev q_sigges q_nlp = Return d ->
      exists w : float,
        (core_rule_path d = "ALIVE_NLP_AGREE_SIGGES" /\
         weight_as_specified q_sigges SIGGES (address_of sigges_ev) w /\
         core_confidence d =
           clamp (W_NLP pol * p_of pol nlp_ev + BOOST_AGREE pol +
                  ADDR_BONUS_SIGGES pol * w)) \/
        (core_rule_path d = "ALIVE_NLP_DISAGREE" /\
         weight_as_specified q_nlp NLP (address_of nlp_ev) w /\
         core_confidence d =
           clamp (W_NLP pol * p_of pol nlp_ev + 0 + ADDR_BONUS_NLP pol * w)) \/
        (core_rule_path d = "ALIVE_SIGGES_ONLY" /\
         weight_as_specified q_sigges SIGGES (address_of sigges_ev) w /\
         core_confidence d =
           clamp (SIGGES_ONLY_BASE pol + ADDR_BONUS_SIGGES pol * w))).
Proof.
  split; [repeat split|]. split.
  - intros source addr. unfold default_addr_weight.
    repeat split; intros ->; reflexivity.
  - intros pol nlp_ev sigges_ev q_sigges q_nlp d Hd.
    destruct (decide_alive_cases pol nlp_ev sigges_ev q_sigges q_nlp d Hd)
      as (_ & [(Hr & Hc) | [(Hr & Hc) | (Hr & Hc)]]);
      eexists; [left | right; left | right; right];
      (split; [exact Hr|]);
      (split; [apply quality_weight_as_specified | exact Hc]).
Qed.

Lemma decide_alive_address_weight_witness :
  exists w : float,
    w = 0.7%float /\
    core_confidence
      {| core_comuna_code := "05101";
         core_address := "Av. X 100";
         core_confidence := clamp (0.90 * 0.8 + 0.15 + 0.05 * 0.7);
         core_sources := [NLP; SIGGES];
         core_rule_path := "ALIVE_NLP_AGREE_SIGGES";
         core_tie_break_reason := None |}
    = clamp (0.90 * 0.8 + 0.15 + 0.05 * w).
Proof.
  destruct (proj2 (proj2 decide_alive_address_weight) Policy.default
              (Some Scenario.nlp_05101) (Some Scenario.sigges_05101) None None
              _ eq_refl) as [w H].
  exists w.
  destruct H as [(_ & (_ & Hw) & Hc) | [(Hr & _) | (Hr & _)]];
    try discriminate Hr.
  split; [exact (Hw eq_refl) | exact Hc].
Defined.

(** ** The deceased path *)

(** C2: [decide_deceased] raises its [ValueError] when the evidence is
    absent or its comuna code is [None]; for an evidence with a comuna code
    it returns that code, the sources [[DCO]], the rule path
    ["DECEASED_DCO"] and, under the default policy, the confidence
    [DCO_BASE_CONF] (0.98) when the address is present (a non-empty string)
    and exactly [DCO_BASE_CONF * DCO_NO_ADDRESS_PENALTY] when it is not. *)
Theorem decide_deceased_default_policy (dco_ev : option ResidenceEvidence) :
  (forall pol : Policy.t,
      dco_ev = None \/ (exists ev, dco_ev = Some ev /\ comuna_code ev = None) ->
      decide_deceased pol dco_ev = Raise (mkExn ValueError msg_deceased)) /\
  (forall (ev : ResidenceEvidence) (c : string),
      dco_ev = Some ev -> comuna_code ev = Some c ->
      exists d,
        decide_deceased Policy.default dco_ev = Return d /\
        core_comuna_code d = c /\
        core_address d = or_empty (address ev) /\
        core_sources d = [DCO] /\
        core_rule_path d = "DECEASED_DCO" /\
        (Spec.address_present ev = true ->
         core_confidence d = DCO_BASE_CONF Policy.default /\
         core_confidence d = 0.98%float) /\
        (Spec.address_present ev = false ->
         core_confidence d =
           (DCO_BASE_CONF Policy.default *
            DCO_NO_ADDRESS_PENALTY Policy.default)%float)) /\
  (forall (pol : Policy.t) (ev : ResidenceEvidence) (c : string),
      dco_ev = Some ev -> comuna_code ev = Some c ->
      exists d,
        decide_deceased pol dco_ev = Return d /\
        core_confidence d =
          clamp (DCO_BASE_CONF pol *
                 (if Spec.address_present ev then 1.0
                  else DCO_NO_ADDRESS_PENALTY pol))).
Proof.
  repeat split.
  - intros pol [-> | (ev & -> & Hc)]; simpl; [reflexivity|]. now rewrite Hc.
  - intros ev c -> Hc. simpl. rewrite Hc. eexists. split; [reflexivity|].
    unfold Spec.address_present. simpl.
    do 4 (split; [reflexivity|]).
    split; intros Ha; rewrite Ha; [split|]; reflexivity.
  - intros pol ev c -> Hc. simpl. rewrite Hc. eexists. split; reflexivity.
Qed.

Lemma decide_deceased_default_policy_witness :
  exists d,
    decide_deceased Policy.default (Some Scenario.dco_05101) = Return d /\
    core_confidence d = 0.98%float /\ core_sources d = [DCO].
Proof.
  destruct (proj1 (proj2 (decide_deceased_default_policy
                            (Some Scenario.dco_05101)))
              Scenario.dco_05101 "05101" eq_refl eq_refl)
    as (d & Hd & _ & _ & Hs & _ & Hp & _).
  exists d. split; [exact Hd|]. split; [exact (proj2 (Hp eq_refl)) | exact Hs].
Defined.

(** [decide_alive] never returns the empty comuna code. *)
Lemma decide_alive_comuna_nonempty (pol : Policy.t)
    (nlp_ev sigges_ev : option ResidenceEvidence)
    (q_sigges q_nlp : option AddressQuality) (d : DecisionCore) :
  decide_alive pol nlp_ev sigges_ev q_sigges q_nlp = Return d ->
  core_comuna_code d <> "".
Proof.
  intros Hd.
  now destruct (decide_alive_cases pol nlp_ev sigges_ev q_sigges q_nlp d Hd).
Qed.

(** [decide_deceased] hands the evidence's comuna code over as it is. *)
Lemma decide_deceased_comuna (pol : Policy.t) (ev : ResidenceEvidence)
    (d : DecisionCore) :
  decide_deceased pol (Some ev) = Return d ->
  comuna_code ev = Some (core_comuna_code d).
Proof.
  simpl. destruct (comuna_code ev); [|discriminate].
  intros H. now injection H as <-.
Qed.

(** C8: [decide_deceased] on an evidence whose comuna code is the empty
    string returns a decision, and its comuna code is empty. *)
Theorem decide_deceased_returns_empty_comuna :
  decide_deceased Policy.default (Some Scenario.dco_empty_comuna) =
  Return {| core_comuna_code := "";
            core_address := "Av. X 100";
            core_confidence := 0.98;
            core_sources := [DCO];
            core_rule_path := "DECEASED_DCO";
            core_tie_break_reason := None |}.
Proof. reflexivity. Qed.

(** ** Binary64 facts behind the clamp *)

Module FloatFacts.

Lemma SFcompare_antisym (a b : spec_float) :
  SFcompare b a = option_map CompOpp (SFcompare a b).
Proof.
  destruct a as [sa| sa | | sa ma ea], b as [sb | sb | | sb mb eb];
    try reflexivity;
    try (destruct sa; reflexivity);
    try (destruct sb; reflexivity);
    try (destruct sa, sb; reflexivity).
  simpl. destruct sa, sb; try reflexivity.
  - rewrite (Z.compare_antisym ea eb).
    destruct (ea ?= eb)%Z eqn:E; simpl; try reflexivity.
    f_equal. f_equal. apply Pos.compare_antisym.
  - rewrite (Z.compare_antisym ea eb).
    destruct (ea ?= eb)%Z eqn:E; simpl; try reflexivity.
    f_equal. apply (Pos.compare_antisym ma mb).
Qed.

Lemma SFcompare_None (a b : spec_float) :
  SFcompare a b = None -> a = S754_nan \/ b = S754_nan.
Proof.
  destruct a, b; simpl; try discriminate; auto.
Qed.

Lemma is_nan_false (x : float) :
  is_nan x = false <-> Prim2SF x <> S754_nan.
Proof.
  unfold is_nan. rewrite eqb_spec. split.
  - intros H E. rewrite E in H. discriminate.
  - intros H. unfold SFeqb.
    destruct (SFcompare (Prim2SF x) (Prim2SF x)) as [c|] eqn:E.
    + pose proof (SFcompare_antisym (Prim2SF x) (Prim2SF x)) as A.
      rewrite E in A. simpl in A. destruct c; try reflexivity; discriminate.
    + apply SFcompare_None in E. tauto.
Qed.

Lemma is_nan_true (x : float) :
  is_nan x = true <-> x = nan.
Proof.
  split.
  - intros H. apply Prim2SF_inj. change (Prim2SF nan) with S754_nan.
    destruct (Prim2SF x) eqn:E; try reflexivity;
      assert (N : is_nan x = false) by (apply is_nan_false; congruence);
      congruence.
  - intros ->. reflexivity.
Qed.

(** Among numbers, "not less than" is "greater than or equal to". *)
Lemma ltb_false_leb (x y : float) :
  is_nan x = false -> is_nan y = false ->
  (x <? y)%float = false -> (y <=? x)%float = true.
Proof.
  rewrite !is_nan_false, ltb_spec, leb_spec. unfold SFltb, SFleb.
  intros Hx Hy. rewrite (SFcompare_antisym (Prim2SF x) (Prim2SF y)).
  destruct (SFcompare (Prim2SF x) (Prim2SF y)) as [c|] eqn:E.
  - destruct c; simpl; congruence.
  - apply SFcompare_None in E. tauto.
Qed.

(** [clamp] hands a NaN back. *)
Lemma clamp_nan : clamp nan = nan.
Proof. reflexivity. Qed.

Lemma in_unit_not_nan (x : float) :
  Spec.in_unit x = true -> is_nan x = false.
Proof.
  unfold Spec.in_unit. intros H. apply andb_prop in H. destruct H as [H _].
  destruct (is_nan x) eqn:N; [|reflexivity].
  apply is_nan_true in N. subst x. discriminate.
Qed.

(** [clamp] brings every number into [0.0, 1.0]. *)
Lemma clamp_in_unit (x : float) :
  is_nan x = false -> Spec.in_unit (clamp x) = true.
Proof.
  intros N. unfold clamp, clamp_range.
  destruct (1 <? x)%float eqn:H1; [reflexivity|].
  destruct (x <? 0)%float eqn:H0; [reflexivity|].
  unfold Spec.in_unit.
  rewrite (ltb_false_leb x 0 N eq_refl H0).
  rewrite (ltb_false_leb 1 x eq_refl N H1). reflexivity.
Qed.

Lemma clamp_in_unit_iff (x : float) :
  Spec.in_unit (clamp x) = true <-> is_nan x = false.
Proof.
  split; [|apply clamp_in_unit].
  intros H. destruct (is_nan x) eqn:N; [|reflexivity].
  apply is_nan_true in N. subst x. discriminate.
Qed.

End FloatFacts.

Module Rounding.

Lemma shr_1_nonneg (mrs : shr_record) :
  (0 <= shr_m mrs)%Z -> (0 <= shr_m (shr_1 mrs))%Z.
Proof.
  destruct mrs as [m r s]. simpl.
  destruct m as [|[p|p|]|[p|p|]]; simpl; lia.
Qed.

Lemma iter_shr_1_nonneg (p : positive) :
  forall mrs, (0 <= shr_m mrs)%Z -> (0 <= shr_m (iter_pos shr_1 p mrs))%Z.
Proof.
  induction p as [p IH|p IH|]; intros mrs H; simpl.
  - apply IH, IH, shr_1_nonneg, H.
  - apply IH, IH, H.
  - apply shr_1_nonneg, H.
Qed.

Lemma shr_nonneg (mrs : shr_record) (e n : Z) :
  (0 <= shr_m mrs)%Z -> (0 <= shr_m (fst (shr mrs e n)))%Z.
Proof.
  intros H. destruct n; simpl; trivial. now apply iter_shr_1_nonneg.
Qed.

Lemma shr_fexp_nonneg (m e : Z) (l : location) :
  (0 <= m)%Z -> (0 <= shr_m (fst (shr_fexp prec emax m e l)))%Z.
Proof.
  intros H. unfold shr_fexp. apply shr_nonneg.
  destruct l as [|[]]; exact H.
Qed.

Lemma round_nearest_even_nonneg (m : Z) (l : location) :
  (0 <= m)%Z -> (0 <= round_nearest_even m l)%Z.
Proof.
  intros H. destruct l as [|[]]; simpl; try lia.
  destruct (Z.even m); lia.
Qed.

(** Rounding a non-negative mantissa gives a zero, a finite number or an
    infinity, of the sign asked for. *)
Lemma binary_round_aux_pos (mx ex : Z) (lx : location) :
  (0 <= mx)%Z -> sf_pos (binary_round_aux prec emax false mx ex lx) = true.
Proof.
  intros H. unfold binary_round_aux.
  pose proof (shr_fexp_nonneg mx ex lx H) as H1.
  destruct (shr_fexp prec emax mx ex lx) as [mrs' e']. simpl in H1.
  pose proof (shr_fexp_nonneg _ e' loc_Exact
                (round_nearest_even_nonneg (shr_m mrs')
                   (loc_of_shr_record mrs') H1)) as H2.
  destruct (shr_fexp prec emax _ e' loc_Exact) as [mrs'' e'']. simpl in H2.
  destruct (shr_m mrs'') as [|m|m]; [reflexivity| |lia].
  destruct (e'' <=? emax - prec)%Z; reflexivity.
Qed.

Lemma SFmul_pos (a b : spec_float) :
  sf_fin_pos a = true -> sf_fin_pos b = true -> sf_pos (SF64mul a b) = true.
Proof.
  destruct a as [sa|sa| |sa ma ea], b as [sb|sb| |sb mb eb];
    simpl; try discriminate; try reflexivity.
  destruct sa, sb; try discriminate. intros _ _.
  apply binary_round_aux_pos. lia.
Qed.

Lemma SFadd_pos (a b : spec_float) :
  sf_pos a = true -> sf_pos b = true -> sf_pos (SF64add a b) = true.
Proof.
  destruct a as [sa|sa| |sa ma ea], b as [sb|sb| |sb mb eb];
    simpl; try discriminate; try (destruct sa, sb; simpl; congruence).
  destruct sa, sb; try discriminate. intros _ _.
  unfold SF64add, SFadd. cbv zeta. unfold cond_Zopp.
  change (Z.pos ?a + Z.pos ?b)%Z with (Z.pos (a + b)).
  unfold binary_normalize, binary_round.
  destruct (shl_align _ _ _) as [mz ez].
  apply binary_round_aux_pos. lia.
Qed.

End Rounding.

(** ** Where the confidence does lie in [0.0, 1.0] *)

Module Sign.
Import FloatFacts Rounding.

Lemma finite_nonneg_fin_pos (x : float) :
  finite_nonneg x = true -> sf_fin_pos (Prim2SF x) = true.
Proof.
  unfold finite_nonneg. rewrite leb_spec, ltb_spec.
  change (Prim2SF 0) with (S754_zero false).
  change (Prim2SF infinity) with (S754_infinity false).
  destruct (Prim2SF x) as [s|[]| |[] m e]; simpl; try discriminate; reflexivity.
Qed.

Lemma finite_nonneg_pos (x : float) : finite_nonneg x = true -> pos x.
Proof.
  intros H. apply finite_nonneg_fin_pos in H. unfold pos.
  destruct (Prim2SF x); simpl in *; congruence.
Qed.

Lemma mul_pos (a b : float) :
  finite_nonneg a = true -> finite_nonneg b = true -> pos (a * b).
Proof.
  intros Ha Hb. unfold pos. rewrite mul_spec.
  apply SFmul_pos; now apply finite_nonneg_fin_pos.
Qed.

Lemma add_pos (a b : float) : pos a -> pos b -> pos (a + b).
Proof.
  intros Ha Hb. unfold pos. rewrite add_spec. now apply SFadd_pos.
Qed.

Lemma pos_not_nan (x : float) : pos x -> is_nan x = false.
Proof.
  unfold pos. intros H. apply is_nan_false. intros E. rewrite E in H.
  discriminate.
Qed.

Lemma clamp_pos_in_unit (x : float) : pos x -> Spec.in_unit (clamp x) = true.
Proof.
  intros H. now apply clamp_in_unit, pos_not_nan.
Qed.

Lemma quality_weight_finite_nonneg (hint : option AddressQuality)
    (source : Source) (addr : option string) :
  finite_nonneg (Spec.quality_weight hint source addr) = true.
Proof.
  destruct hint as [[]|]; try reflexivity.
  destruct addr as [[|a s]|]; try reflexivity.
  destruct source; reflexivity.
Qed.

End Sign.

(** For every policy of finite, non-negative constants, however large, and
    every model probability that is finite and not negative, the
    confidence of a returned decision lies in [0.0, 1.0]. *)
Lemma decide_deceased_confidence_in_unit (pol : Policy.t)
    (dco_ev : option ResidenceEvidence) (d : DecisionCore) :
  policy_finite_nonneg pol = true ->
  decide_deceased pol dco_ev = Return d ->
  Spec.in_unit (core_confidence d) = true.
Proof.
  intros Hp Hd. policy_constants Hp.
  destruct dco_ev as [ev|]; simpl in Hd; [|discriminate].
  destruct (comuna_code ev); [|discriminate].
  injection Hd as <-. simpl.
  apply Sign.clamp_pos_in_unit, Sign.mul_pos; trivial.
  destruct (truthy (address ev)); [reflexivity | assumption].
Qed.

Lemma decide_alive_confidence_in_unit (pol : Policy.t)
    (nlp_ev sigges_ev : option ResidenceEvidence)
    (q_sigges q_nlp : option AddressQuality) (d : DecisionCore) :
  policy_finite_nonneg pol = true ->
  p_model_finite_nonneg nlp_ev = true ->
  decide_alive pol nlp_ev sigges_ev q_sigges q_nlp = Return d ->
  Spec.in_unit (core_confidence d) = true.
Proof.
  intros Hp Hm Hd. policy_constants Hp.
  assert (Hpm : finite_nonneg (p_of pol nlp_ev) = true).
  { destruct nlp_ev as [e|]; simpl in *; trivial.
    unfold p_or_default. destruct (p_model e); trivial. }
  destruct (decide_alive_cases pol nlp_ev sigges_ev q_sigges q_nlp d Hd)
    as (_ & [(_ & ->) | [(_ & ->) | (_ & ->)]]);
    apply Sign.clamp_pos_in_unit;
    repeat apply Sign.add_pos;
    try (apply Sign.mul_pos; trivial; apply Sign.quality_weight_finite_nonneg);
    try (apply Sign.finite_nonneg_pos; trivial; reflexivity).
Qed.

(** A number in [0,1] is finite and not negative. *)
Lemma in01_finite_nonneg (x : float) :
  Policy._in01 x = true -> finite_nonneg x = true.
Proof.
  unfold Policy._in01, finite_nonneg. rewrite !leb_spec, ltb_spec.
  change (Prim2SF 0) with (S754_zero false).
  change (Prim2SF infinity) with (S754_infinity false).
  destruct (Prim2SF x) as [s|[]| |[] m e]; simpl; try discriminate; reflexivity.
Qed.

Lemma weights_in01_finite_nonneg (pol : Policy.t) :
  Policy.weights_in01 pol = true -> policy_finite_nonneg pol = true.
Proof.
  unfold Policy.weights_in01, policy_finite_nonneg. cbn [forallb].
  intros H.
  repeat (apply andb_prop in H;
          let H1 := fresh "Hw" in destruct H as [H1 H];
          apply in01_finite_nonneg in H1; rewrite H1).
  reflexivity.
Qed.

(** Under a policy that [validate_policy] accepts, and for a model
    probability in [0,1], every confidence lies in [0.0, 1.0]. *)
Lemma validated_confidence_in_unit (pol : Policy.t)
    (dco_ev nlp_ev sigges_ev : option ResidenceEvidence)
    (q_sigges q_nlp : option AddressQuality) (d : DecisionCore) :
  Policy.weights_in01 pol = true ->
  p_model_in01 nlp_ev = true ->
  decide_deceased pol dco_ev = Return d \/
  decide_alive pol nlp_ev sigges_ev q_sigges q_nlp = Return d ->
  Spec.in_unit (core_confidence d) = true.
Proof.
  intros Hw Hp [Hd|Hd].
  - eapply decide_deceased_confidence_in_unit; eauto.
    now apply weights_in01_finite_nonneg.
  - eapply decide_alive_confidence_in_unit; eauto.
    + now apply weights_in01_finite_nonneg.
    + destruct nlp_ev as [e|]; simpl in *; trivial.
      destruct (p_model e); trivial. now apply in01_finite_nonneg.
Qed.

(** C1: the confidence does not always lie in [0.0, 1.0].  [clamp] compares,
    and every comparison with NaN is false, so [clamp] brings exactly the
    numbers into [0.0, 1.0] and hands a NaN score back as it is: a
    text-inference evidence whose model probability is NaN gets the
    confidence NaN under the default policy, and so does a valid evidence
    (probability 0.0) under a policy with an infinite [W_NLP]. *)
Theorem nan_confidence_escapes_clamp :
  (forall x : float, Spec.in_unit (clamp x) = true <-> is_nan x = false) /\
  clamp nan = nan /\
  (exists d,
     decide_alive Policy.default (Some Scenario.nlp_nan) None None None
       = Return d /\
     core_confidence d = nan /\
     Spec.in_unit (core_confidence d) = false) /\
  (exists d,
     decide_alive Scenario.policy_inf (Some Scenario.nlp_zero) None None None
       = Return d /\
     core_confidence d = nan /\
     Spec.in_unit (core_confidence d) = false).
Proof.
  split; [exact FloatFacts.clamp_in_unit_iff|].
  split; [reflexivity|].
  split; eexists; (split; [reflexivity|]); split; reflexivity.
Qed.

(** ** The orchestrator and its connectors *)

Module OrchestratorFacts.
Import Imputer Orchestrator.

Lemma safe_fetch_dco_raises (env : Env) (rut dv : string) (deadline : Z) (e : exn) :
  dco_fetch env rut dv deadline = Raise e ->
  _safe_fetch_dco env rut dv deadline =
  Raise (mkExn ValueError
           ("DCOReader.fetch failed for deceased path: " ++ exn_msg e)).
Proof.
  intros H. unfold _safe_fetch_dco. now rewrite H.
Qed.

Lemma safe_fetch_sigges_raises (env : Env) (rut dv : string) (deadline : Z) (e : exn) :
  sigges_fetch env rut dv deadline = Raise e ->
  _safe_fetch_sigges_with_quality env rut dv deadline = (None, None).
Proof.
  intros H. unfold _safe_fetch_sigges_with_quality. now rewrite H.
Qed.

Lemma safe_infer_nlp_raises (env : Env) (texts : list string) (deadline : Z) (e : exn) :
  nlp_infer env texts deadline = Raise e ->
  _safe_infer_nlp_with_quality env texts deadline = (None, None).
Proof.
  intros H. unfold _safe_infer_nlp_with_quality. now rewrite H.
Qed.

(** A failing claims-system connector is a connector that found nothing. *)
Lemma decide_sigges_degraded (env : Env) (pol : Policy.t) (rut dv : string)
    (vital_status : Z) (ges_text noges_text : option string) (audit_id : string)
    (e : exn) :
  vital_status <> 2%Z ->
  sigges_fetch env rut dv (sigges_deadline env) = Raise e ->
  decide env pol rut dv vital_status ges_text noges_text audit_id =
  decide (with_sigges env absent_sigges) pol rut dv vital_status
    ges_text noges_text audit_id.
Proof.
  intros Hv He. unfold decide.
  destruct (Z.eqb_spec vital_status 2) as [|_]; [contradiction|].
  fold (sigges_deadline env).
  rewrite (safe_fetch_sigges_raises env rut dv _ e He).
  reflexivity.
Qed.

(** A failing text-inference connector is a connector that found nothing. *)
Lemma decide_nlp_degraded (env : Env) (pol : Policy.t) (rut dv : string)
    (vital_status : Z) (ges_text noges_text : option string) (audit_id : string)
    (e : exn) :
  vital_status <> 2%Z ->
  nlp_infer env (nonempty_texts ges_text noges_text) (nlp_deadline env) = Raise e ->
  decide env pol rut dv vital_status ges_text noges_text audit_id =
  decide (with_nlp env absent_nlp) pol rut dv vital_status
    ges_text noges_text audit_id.
Proof.
  intros Hv He. unfold decide.
  destruct (Z.eqb_spec vital_status 2) as [|_]; [contradiction|].
  change (_safe_fetch_sigges_with_quality (with_nlp env absent_nlp))
    with (_safe_fetch_sigges_with_quality env).
  destruct (_safe_fetch_sigges_with_quality env rut dv _) as [sigges_ev q_sigges].
  fold (nlp_deadline env).
  destruct (nonempty_texts ges_text noges_text) as [|t ts] eqn:Et; [reflexivity|].
  rewrite (safe_infer_nlp_raises env _ _ e He). reflexivity.
Qed.

(** Text inference that found an evidence hands it on, its address
    standardised when a normaliser is configured. *)
Lemma safe_infer_nlp_found (env : Env) (texts : list string) (deadline : Z)
    (found : ResidenceEvidence) :
  nlp_infer env texts deadline = Return (Some found) ->
  normalizer_returns env found ->
  exists nlp q_nlp,
    _safe_infer_nlp_with_quality env texts deadline = (Some nlp, q_nlp) /\
    comuna_code nlp = comuna_code found.
Proof.
  intros Hn Hq. unfold _safe_infer_nlp_with_quality. rewrite Hn.
  destruct (address found) as [a|] eqn:Ea; [|eauto].
  destruct (normalizer env) as [normalize|] eqn:En; [|eauto].
  destruct a as [|ch a']; [simpl; eauto|]. simpl truthy_str. cbv iota.
  destruct (Hq normalize (String ch a') En Ea) as [[std q] Hr]; [discriminate|].
  rewrite Hr. eauto.
Qed.

(** With text inference alone the decision is the text-inference one. *)
Lemma decide_nlp_alone (env : Env) (pol : Policy.t) (rut dv : string)
    (vital_status : Z) (ges_text noges_text : option string) (audit_id : string)
    (e : exn) (nlp : ResidenceEvidence) (q_nlp : option AddressQuality)
    (c region_code comuna_name region_name : string) :
  vital_status <> 2%Z ->
  sigges_fetch env rut dv (sigges_deadline env) = Raise e ->
  nonempty_texts ges_text noges_text <> [] ->
  _safe_infer_nlp_with_quality env (nonempty_texts ges_text noges_text)
    (nlp_deadline env) = (Some nlp, q_nlp) ->
  comuna_code nlp = Some c -> c <> "" ->
  to_region_code env c = Return region_code ->
  to_comuna_name env c = Return comuna_name ->
  to_region_name env region_code = Return region_name ->
  decide env pol rut dv vital_status ges_text noges_text audit_id =
  Return {| d_region := region_name;
            d_region_code := region_code;
            d_comuna := comuna_name;
            d_comuna_code := c;
            d_address := or_empty (address nlp);
            d_confidence :=
              clamp (W_NLP pol * p_or_default pol nlp + 0 +
                     ADDR_BONUS_NLP pol *
                     Spec.quality_weight q_nlp NLP (address nlp));
            d_sources := [NLP];
            d_audit_id := audit_id |}.
Proof.
  intros Hv He Ht Hn Hc Hne Hrc Hcn Hrn. unfold decide.
  destruct (Z.eqb_spec vital_status 2) as [|_]; [contradiction|].
  fold (sigges_deadline env). fold (nlp_deadline env).
  rewrite (safe_fetch_sigges_raises env rut dv _ e He).
  destruct (nonempty_texts ges_text noges_text) as [|t ts] eqn:Et;
    [congruence|].
  rewrite Hn.
  rewrite (decide_alive_disagree_branch pol nlp None c None q_nlp Hc Hne eq_refl).
  cbn [bind]. unfold _complete_decision. cbv zeta.
  cbn [core_comuna_code core_address core_confidence core_sources].
  rewrite Hrc. cbn [bind]. rewrite Hcn. cbn [bind]. rewrite Hrn. cbn [bind].
  f_equal. f_equal. cbn [or_empty].
  destruct (address nlp) as [[|a s]|]; reflexivity.
Qed.

End OrchestratorFacts.

Import Imputer Orchestrator.

(** C7: in [decide], on the deceased path ([vital_status] 2) an exception
    of the DCO connector is re-raised as the [ValueError] of the domain and
    no decision is returned; on the alive path an exception of the SIGGES
    connector, or of the NLP connector, leaves that source without evidence
    and changes nothing else: the outcome is the one of a connector that
    found nothing.  So when SIGGES times out while NLP finds a comuna code
    the catalog knows, [decide] returns the decision of NLP alone. *)
Theorem decide_connector_failures
    (env : Env) (pol : Policy.t) (rut dv : string)
    (ges_text noges_text : option string) (audit_id : string) :
  (forall e : exn,
      dco_fetch env rut dv (dco_deadline env) = Raise e ->
      decide env pol rut dv 2 ges_text noges_text audit_id =
      Raise (mkExn ValueError
               ("DCOReader.fetch failed for deceased path: " ++ exn_msg e))) /\
  (forall (vital_status : Z) (e : exn),
      vital_status <> 2%Z ->
      sigges_fetch env rut dv (sigges_deadline env) = Raise e ->
      _safe_fetch_sigges_with_quality env rut dv (sigges_deadline env)
        = (None, None) /\
      decide env pol rut dv vital_status ges_text noges_text audit_id =
      decide (with_sigges env absent_sigges) pol rut dv vital_status
        ges_text noges_text audit_id) /\
  (forall (vital_status : Z) (e : exn),
      vital_status <> 2%Z ->
      nlp_infer env (nonempty_texts ges_text noges_text) (nlp_deadline env)
        = Raise e ->
      _safe_infer_nlp_with_quality env (nonempty_texts ges_text noges_text)
        (nlp_deadline env) = (None, None) /\
      decide env pol rut dv vital_status ges_text noges_text audit_id =
      decide (with_nlp env absent_nlp) pol rut dv vital_status
        ges_text noges_text audit_id) /\
  (forall (vital_status : Z) (e : exn) (found : ResidenceEvidence)
          (c region_code comuna_name region_name : string),
      vital_status <> 2%Z ->
      sigges_fetch env rut dv (sigges_deadline env) = Raise e ->
      nonempty_texts ges_text noges_text <> [] ->
      nlp_infer env (nonempty_texts ges_text noges_text) (nlp_deadline env)
        = Return (Some found) ->
      normalizer_returns env found ->
      comuna_code found = Some c -> c <> "" ->
      to_region_code env c = Return region_code ->
      to_comuna_name env c = Return comuna_name ->
      to_region_name env region_code = Return region_name ->
      exists dec : Decision,
        decide env pol rut dv vital_status ges_text noges_text audit_id
          = Return dec /\
        d_comuna_code dec = c /\ d_sources dec = [NLP] /\
        d_region_code dec = region_code /\ d_audit_id dec = audit_id).
Proof.
  split; [|split; [|split]].
  - intros e He. unfold decide. simpl Z.eqb. cbv iota.
    fold (dco_deadline env).
    now rewrite (OrchestratorFacts.safe_fetch_dco_raises env rut dv _ e He).
  - intros vital_status e Hv He. split.
    + now apply OrchestratorFacts.safe_fetch_sigges_raises with e.
    + now apply OrchestratorFacts.decide_sigges_degraded with e.
  - intros vital_status e Hv He. split.
    + now apply OrchestratorFacts.safe_infer_nlp_raises with e.
    + now apply OrchestratorFacts.decide_nlp_degraded with e.
  - intros vital_status e found c rc cn rn Hv He Ht Hn Hq Hc Hne Hrc Hcn Hrn.
    destruct (OrchestratorFacts.safe_infer_nlp_found env _ _ found Hn Hq)
      as (nlp & q_nlp & Hs & Hcc).
    rewrite Hc in Hcc.
    eexists. split.
    + eapply OrchestratorFacts.decide_nlp_alone; eassumption.
    + repeat split.
Qed.

Lemma decide_connector_failures_witness :
  exists dec : Decision,
    decide timeout_env Policy.default "12345678" "K" 1
      (Some "vive en Valparaiso") None "audit-1" = Return dec /\
    d_comuna_code dec = "05101" /\ d_sources dec = [NLP].
Proof.
  destruct (proj2 (proj2 (proj2
              (decide_connector_failures timeout_env Policy.default
                 "12345678" "K" (Some "vive en Valparaiso") None "audit-1")))
              1%Z (mkExn TimeoutError "SIGGES timed out")
              Scenario.nlp_05101 "05101" "05" "Valparaiso" "Valparaiso"
              ltac:(discriminate) eq_refl ltac:(discriminate) eq_refl
              ltac:(intros normalize a Hn; discriminate Hn)
              eq_refl ltac:(discriminate) eq_refl eq_refl eq_refl)
    as (dec & Hd & Hc & Hs & _).
  exists dec. repeat split; assumption.
Defined.


(** * Further properties *)

(** ** The order behind the comparisons *)

Module OrderFacts.
Import Order.

(** [a <= b] holds exactly when both are numbers and their keys are in
    order. *)
Lemma SFleb_key (a b : spec_float) :
  SFleb a b = true <-> a <> S754_nan /\ b <> S754_nan /\ key_le a b.
Proof.
  unfold SFleb, key_le.
  destruct a as [sa|[]| |[] ma ea], b as [sb|[]| |[] mb eb]; simpl;
    try by_keys;
    change (PosDef.Pos.compare_cont Eq ma mb) with (Pos.compare ma mb);
    destruct (Z.compare_spec ea eb) as [E|E|E]; simpl; try by_keys;
    destruct (Pos.compare_spec ma mb) as [F|F|F]; simpl; by_keys.
Qed.

Lemma SFltb_key (a b : spec_float) :
  SFltb a b = true <-> a <> S754_nan /\ b <> S754_nan /\ key_lt a b.
Proof.
  unfold SFltb, key_lt.
  destruct a as [sa|[]| |[] ma ea], b as [sb|[]| |[] mb eb]; simpl;
    try by_keys;
    change (PosDef.Pos.compare_cont Eq ma mb) with (Pos.compare ma mb);
    destruct (Z.compare_spec ea eb) as [E|E|E]; simpl; try by_keys;
    destruct (Pos.compare_spec ma mb) as [F|F|F]; simpl; by_keys.
Qed.

Lemma leb_trans (x y z : float) :
  (x <=? y)%float = true -> (y <=? z)%float = true -> (x <=? z)%float = true.
Proof.
  rewrite !leb_spec, !SFleb_key. unfold key_le.
  intros (Hx & Hy & H1) (_ & Hz & H2). repeat split; trivial. lia.
Qed.

Lemma ltb_leb_trans (x y z : float) :
  (x <? y)%float = true -> (y <=? z)%float = true -> (x <? z)%float = true.
Proof.
  rewrite !ltb_spec, leb_spec, !SFltb_key, SFleb_key. unfold key_le, key_lt.
  intros (Hx & Hy & H1) (_ & Hz & H2). repeat split; trivial. lia.
Qed.

Lemma leb_ltb_false (x y : float) :
  (x <=? y)%float = true -> (y <? x)%float = false.
Proof.
  rewrite leb_spec, ltb_spec, SFleb_key. intros (Hx & Hy & H).
  destruct (SFltb (Prim2SF y) (Prim2SF x)) eqn:E; [|reflexivity].
  apply SFltb_key in E. destruct E as (_ & _ & E).
  unfold key_le, key_lt in *. lia.
Qed.

Lemma leb_not_nan (x y : float) :
  (x <=? y)%float = true -> is_nan x = false /\ is_nan y = false.
Proof.
  rewrite leb_spec, SFleb_key. intros (Hx & Hy & _).
  split; now apply FloatFacts.is_nan_false.
Qed.

End OrderFacts.

(** ** [clamp] *)

(** X1: [clamp] leaves every number of [0.0, 1.0] as it is. *)
Theorem clamp_fixes_unit_interval (x : float) :
  Spec.in_unit x = true -> clamp x = x.
Proof.
  unfold Spec.in_unit. intros H. apply andb_prop in H. destruct H as [H0 H1].
  unfold clamp, clamp_range.
  rewrite (OrderFacts.leb_ltb_false x 1 H1).
  now rewrite (OrderFacts.leb_ltb_false 0 x H0).
Qed.

Lemma clamp_fixes_unit_interval_witness :
  Spec.in_unit 0.72 = true /\ clamp 0.72 = 0.72%float.
Proof.
  split; [reflexivity | apply (clamp_fixes_unit_interval 0.72); reflexivity].
Defined.

(** X2: clamping twice is clamping once, for every float, NaN included. *)
Theorem clamp_idempotent (x : float) : clamp (clamp x) = clamp x.
Proof.
  destruct (is_nan x) eqn:N.
  - apply FloatFacts.is_nan_true in N. subst x. reflexivity.
  - pose proof (FloatFacts.clamp_in_unit x N) as U. unfold Spec.in_unit in U.
    apply andb_prop in U. destruct U as [U0 U1].
    set (c := clamp x) in *. unfold clamp, clamp_range.
    rewrite (OrderFacts.leb_ltb_false c 1 U1).
    now rewrite (OrderFacts.leb_ltb_false 0 c U0).
Qed.

(** X3: [clamp] keeps the order: when [x <= y], [clamp(x) <= clamp(y)]. *)
Theorem clamp_monotone (x y : float) :
  (x <=? y)%float = true -> (clamp x <=? clamp y)%float = true.
Proof.
  intros H. destruct (OrderFacts.leb_not_nan x y H) as [Nx Ny].
  pose proof (FloatFacts.clamp_in_unit x Nx) as Ux.
  pose proof (FloatFacts.clamp_in_unit y Ny) as Uy.
  unfold Spec.in_unit in Ux, Uy.
  apply andb_prop in Ux. apply andb_prop in Uy.
  destruct Ux as [Ux0 Ux1], Uy as [Uy0 Uy1].
  unfold clamp, clamp_range in *.
  destruct (1 <? x)%float eqn:X1.
  - rewrite (OrderFacts.ltb_leb_trans 1 x y X1 H). reflexivity.
  - destruct (x <? 0)%float eqn:X0; [exact Uy0|].
    destruct (1 <? y)%float eqn:Y1; [exact Ux1|].
    destruct (y <? 0)%float eqn:Y0; [|exact H].
    pose proof (OrderFacts.leb_trans 0 x y Ux0 H) as H0.
    apply OrderFacts.leb_ltb_false in H0. congruence.
Qed.

Lemma clamp_monotone_witness :
  (clamp (-3) <=? clamp 0.5)%float = true.
Proof.
  apply (clamp_monotone (-3) 0.5). reflexivity.
Defined.

(** ** More on the fusion rules *)

(** X4: when text inference has a comuna code, the decision carries that
    code whatever the claims evidence says; the agreement path is taken
    exactly when the claims evidence is there with the same code, the
    disagreement path otherwise. *)
Theorem decide_alive_prefers_nlp
    (pol : Policy.t) (nlp : ResidenceEvidence) (c : string)
    (sigges_ev : option ResidenceEvidence)
    (q_sigges q_nlp : option AddressQuality) :
  comuna_code nlp = Some c -> c <> "" ->
  exists d,
    decide_alive pol (Some nlp) sigges_ev q_sigges q_nlp = Return d /\
    core_comuna_code d = c /\
    In NLP (core_sources d) /\
    (core_rule_path d = "ALIVE_NLP_AGREE_SIGGES" <->
     exists sg, sigges_ev = Some sg /\ comuna_code sg = Some c) /\
    (core_rule_path d = "ALIVE_NLP_DISAGREE" <->
     ~ exists sg, sigges_ev = Some sg /\ comuna_code sg = Some c) /\
    (In SIGGES (core_sources d) <->
     exists sg, sigges_ev = Some sg /\ comuna_code sg = Some c).
Proof.
  intros Hc Hne.
  destruct (agreement sigges_ev (Some c)) eqn:Ha.
  - pose proof Ha as Hs. apply agreement_true in Hs.
    destruct Hs as (sg & -> & Hs).
    rewrite (decide_alive_agree pol nlp sg c q_sigges q_nlp Hc Hne Hs).
    eexists. split; [reflexivity|]. simpl.
    assert (E : exists sg0, Some sg = Some sg0 /\ comuna_code sg0 = Some c)
      by eauto.
    repeat split; auto; try discriminate; try tauto.
  - rewrite (decide_alive_disagree_branch pol nlp sigges_ev c q_sigges q_nlp
               Hc Hne Ha).
    eexists. split; [reflexivity|]. simpl.
    assert (N : ~ exists sg, sigges_ev = Some sg /\ comuna_code sg = Some c).
    { intros E. apply agreement_true in E. congruence. }
    repeat split; auto; try discriminate; try tauto.
    all: try (intros [H|[]]; discriminate).
Qed.

Lemma decide_alive_prefers_nlp_witness :
  exists d,
    decide_alive Policy.default
      (Some (mkEvidence NLP (Some "13101") None None None None))
      (Some (mkEvidence SIGGES (Some "13102") (Some "Calle 2") None None None))
      None None = Return d /\
    core_comuna_code d = "13101".
Proof.
  destruct (decide_alive_prefers_nlp Policy.default
              (mkEvidence NLP (Some "13101") None None None None) "13101"
              (Some (mkEvidence SIGGES (Some "13102") (Some "Calle 2") None None None))
              None None eq_refl ltac:(discriminate))
    as (d & Hd & Hc & _).
  exists d. split; assumption.
Defined.

(** X5: a claims evidence that does not agree with the text-inference
    comuna leaves no trace: the decision is the one taken without claims
    evidence and without a claims quality hint. *)
Theorem decide_alive_ignores_disagreeing_sigges
    (pol : Policy.t) (nlp : ResidenceEvidence) (c : string)
    (sg : ResidenceEvidence) (q_sigges q_nlp : option AddressQuality) :
  comuna_code nlp = Some c -> c <> "" -> comuna_code sg <> Some c ->
  decide_alive pol (Some nlp) (Some sg) q_sigges q_nlp
    = decide_alive pol (Some nlp) None None q_nlp.
Proof.
  intros Hc Hne Hs.
  rewrite (decide_alive_disagree_branch pol nlp (Some sg) c q_sigges q_nlp Hc Hne).
  - now rewrite (decide_alive_disagree_branch pol nlp None c None q_nlp Hc Hne).
  - apply agreement_false. right. eauto.
Qed.

Lemma decide_alive_ignores_disagreeing_sigges_witness :
  decide_alive Policy.default
    (Some (mkEvidence NLP (Some "13101") None None None None))
    (Some (mkEvidence SIGGES (Some "13102") (Some "Calle 2") None None None))
    (Some EXACT) None
  = decide_alive Policy.default
      (Some (mkEvidence NLP (Some "13101") None None None None)) None None None.
Proof.
  apply (decide_alive_ignores_disagreeing_sigges Policy.default
           (mkEvidence NLP (Some "13101") None None None None) "13101"
           (mkEvidence SIGGES (Some "13102") (Some "Calle 2") None None None)
           (Some EXACT) None eq_refl);
    discriminate.
Defined.

(** X6: under agreement the address is the claims evidence's alone: the
    text-inference address and its quality hint change nothing, and when
    the claims evidence has no address the decision's address is [""],
    whatever address text inference extracted. *)
Theorem decide_alive_agreement_address
    (pol : Policy.t) (nlp sg : ResidenceEvidence) (c : string)
    (q_sigges q_nlp q_nlp' : option AddressQuality) (a' : option string) :
  comuna_code nlp = Some c -> c <> "" -> comuna_code sg = Some c ->
  decide_alive pol (Some nlp) (Some sg) q_sigges q_nlp
    = decide_alive pol (Some (Orchestrator2.with_address nlp a')) (Some sg)
        q_sigges q_nlp' /\
  exists d,
    decide_alive pol (Some nlp) (Some sg) q_sigges q_nlp = Return d /\
    core_address d = or_empty (address sg) /\
    (truthy (address sg) = false -> core_address d = "").
Proof.
  intros Hc Hne Hs. split.
  - rewrite (decide_alive_agree pol nlp sg c q_sigges q_nlp Hc Hne Hs).
    now rewrite (decide_alive_agree pol (Orchestrator2.with_address nlp a') sg c
                   q_sigges q_nlp' Hc Hne Hs).
  - rewrite (decide_alive_agree pol nlp sg c q_sigges q_nlp Hc Hne Hs).
    eexists. split; [reflexivity|]. simpl. split; [reflexivity|].
    destruct (address sg) as [[|ch s]|]; simpl; congruence.
Qed.

Lemma decide_alive_agreement_address_witness :
  exists d,
    decide_alive Policy.default
      (Some (mkEvidence NLP (Some "05101") (Some "Calle 1") (Some 0.8%float) None None))
      (Some (mkEvidence SIGGES (Some "05101") None None None None))
      None None = Return d /\
    core_address d = "".
Proof.
  destruct (decide_alive_agreement_address Policy.default
              (mkEvidence NLP (Some "05101") (Some "Calle 1") (Some 0.8%float) None None)
              (mkEvidence SIGGES (Some "05101") None None None None)
              "05101" None None None None eq_refl ltac:(discriminate) eq_refl)
    as (_ & d & Hd & _ & Ha).
  exists d. split; [exact Hd | exact (Ha eq_refl)].
Defined.

(** X7: the sources of a decision are never empty and never repeat;
    [decide_alive] lists NLP, SIGGES or both and never DCO,
    [decide_deceased] lists DCO alone. *)
Theorem fusion_sources
    (pol : Policy.t) (dco_ev nlp_ev sigges_ev : option ResidenceEvidence)
    (q_sigges q_nlp : option AddressQuality) (d : DecisionCore) :
  (decide_deceased pol dco_ev = Return d -> core_sources d = [DCO]) /\
  (decide_alive pol nlp_ev sigges_ev q_sigges q_nlp = Return d ->
   (core_sources d = [NLP; SIGGES] \/ core_sources d = [NLP] \/
    core_sources d = [SIGGES]) /\
   core_sources d <> [] /\ NoDup (core_sources d) /\
   ~ In DCO (core_sources d)).
Proof.
  split.
  - destruct dco_ev as [ev|]; simpl; [|discriminate].
    destruct (comuna_code ev); [|discriminate].
    intros H. now injection H as <-.
  - intros Hd.
    assert (S : core_sources d = [NLP; SIGGES] \/ core_sources d = [NLP] \/
                core_sources d = [SIGGES]).
    { destruct (Spec.has_comuna nlp_ev) eqn:Hn.
      - destruct (has_comuna_code _ Hn) as (nlp & c & -> & Hc & Hne & _).
        destruct (agreement sigges_ev (Some c)) eqn:Ha.
        + apply agreement_true in Ha. destruct Ha as (sg & -> & Hs).
          rewrite (decide_alive_agree pol nlp sg c q_sigges q_nlp Hc Hne Hs) in Hd.
          injection Hd as <-. now left.
        + rewrite (decide_alive_disagree_branch pol nlp sigges_ev c q_sigges
                     q_nlp Hc Hne Ha) in Hd.
          injection Hd as <-. right. now left.
      - destruct (Spec.has_comuna sigges_ev) eqn:Hs.
        + destruct (has_comuna_code _ Hs) as (sg & c & -> & Hc & Hne & _).
          rewrite (decide_alive_sigges_branch pol nlp_ev sg c q_sigges q_nlp
                     Hn Hc Hne) in Hd.
          injection Hd as <-. right. now right.
        + rewrite (decide_alive_no_comuna pol _ _ q_sigges q_nlp Hn Hs) in Hd.
          discriminate. }
    split; [exact S|].
    destruct S as [-> | [-> | ->]]; repeat split;
      try discriminate;
      try (repeat constructor; simpl; intuition discriminate);
      simpl; intuition discriminate.
Qed.

Lemma fusion_sources_witness :
  core_sources
    {| core_comuna_code := "05101";
       core_address := "Av. X 100";
       core_confidence := 0.98;
       core_sources := [DCO];
       core_rule_path := "DECEASED_DCO";
       core_tie_break_reason := None |} = [DCO].
Proof.
  apply (proj1 (fusion_sources Policy.default (Some Scenario.dco_05101)
                  None None None None _)).
  reflexivity.
Defined.

(** X8: under the default policy the confidence of a claims-only decision
    is the plain sum [0.65 + 0.05 * weight], never altered by the clamp,
    and lies between 0.65 and 0.70 (0.7000000000000001 as a float). *)
Theorem sigges_only_confidence_default
    (nlp_ev sigges_ev : option ResidenceEvidence)
    (q_sigges q_nlp : option AddressQuality) (d : DecisionCore) :
  Spec.has_comuna nlp_ev = false ->
  decide_alive Policy.default nlp_ev sigges_ev q_sigges q_nlp = Return d ->
  core_confidence d =
    (0.65 + 0.05 * Spec.quality_weight q_sigges SIGGES (address_of sigges_ev))%float /\
  (0.65 <=? core_confidence d)%float = true /\
  (core_confidence d <=? 0.7000000000000001)%float = true.
Proof.
  intros Hn Hd.
  destruct (Spec.has_comuna sigges_ev) eqn:Hs.
  - destruct (has_comuna_code _ Hs) as (sg & c & -> & Hc & Hne & _).
    rewrite (decide_alive_sigges_branch Policy.default nlp_ev sg c q_sigges q_nlp
               Hn Hc Hne) in Hd.
    injection Hd as <-. simpl.
    destruct q_sigges as [[]|]; simpl; try (repeat split; reflexivity).
    destruct (address sg) as [[|ch s]|]; repeat split; reflexivity.
  - rewrite (decide_alive_no_comuna Policy.default _ _ q_sigges q_nlp Hn Hs) in Hd.
    discriminate.
Qed.

Lemma sigges_only_confidence_default_witness :
  (0.65 <=? 0.65 + 0.05 * 0.7)%float = true.
Proof.
  destruct (sigges_only_confidence_default None (Some Scenario.sigges_05101)
              None None _ eq_refl eq_refl) as (_ & H & _).
  exact H.
Defined.

(** ** [validate_policy] *)

Module PolicyCheckFacts.
Import PolicyCheck.

Section WithFormat.
Variable format_float : float -> string.
Variable format_int : Z -> string.

Lemma check_in01_returns (items : list (string * float)) :
  check_in01 format_float items = Return tt <->
  forallb Policy._in01 (map snd items) = true.
Proof.
  induction items as [|[name val] rest IH]; simpl; [tauto|].
  destruct (Policy._in01 val); simpl; [exact IH|].
  split; discriminate.
Qed.

Lemma check_in01_outcome (items : list (string * float)) :
  check_in01 format_float items = Return tt \/
  raises_value_error (check_in01 format_float items).
Proof.
  induction items as [|[name val] rest IH]; simpl; [now left|].
  destruct (Policy._in01 val); simpl; [exact IH|].
  right. eexists. reflexivity.
Qed.

Lemma check_positive_returns (items : list (string * Z)) :
  check_positive format_int items = Return tt <->
  forallb (fun v => (0 <? v)%Z) (map snd items) = true.
Proof.
  induction items as [|[name val] rest IH]; simpl; [tauto|].
  destruct (Z.leb_spec val 0) as [L|L], (Z.ltb_spec 0 val) as [G|G];
    try lia; simpl; [split; discriminate | exact IH].
Qed.

Lemma check_positive_outcome (items : list (string * Z)) :
  check_positive format_int items = Return tt \/
  raises_value_error (check_positive format_int items).
Proof.
  induction items as [|[name val] rest IH]; simpl; [now left|].
  destruct (val <=? 0)%Z; [|exact IH].
  right. eexists. reflexivity.
Qed.

(** The loop stops at the first value out of range. *)
Lemma check_in01_first (pre post : list (string * float))
    (name : string) (val : float) :
  forallb Policy._in01 (map snd pre) = true ->
  Policy._in01 val = false ->
  check_in01 format_float (pre ++ (name, val) :: post) =
  Raise (mkExn ValueError
           (name ++ " debe estar en [0,1]; valor actual=" ++ format_float val)).
Proof.
  intros Hpre Hval. induction pre as [|[n v] pre IH]; simpl in *.
  - now rewrite Hval.
  - apply andb_prop in Hpre. destruct Hpre as [Hv Hpre].
    rewrite Hv. simpl. now apply IH.
Qed.

End WithFormat.
End PolicyCheckFacts.

Import PolicyCheck.

(** X9: [validate_policy] returns exactly when the eight weights, bonuses
    and base confidences are in [0,1] and the four time constants are
    positive; in every other case it raises a [ValueError]. *)
Theorem validate_policy_accepts_iff
    (format_float : float -> string) (format_int : Z -> string)
    (pol : Policy.t) (b : Budgets) :
  (validate_policy format_float format_int pol b = Return tt <->
   Policy.weights_in01 pol = true /\ budgets_positive b = true) /\
  (validate_policy format_float format_int pol b = Return tt \/
   raises_value_error (validate_policy format_float format_int pol b)).
Proof.
  unfold validate_policy.
  pose proof (PolicyCheckFacts.check_in01_returns format_float (weight_items pol)) as W.
  pose proof (PolicyCheckFacts.check_positive_returns format_int (time_items b)) as T.
  change (forallb Policy._in01 (map snd (weight_items pol)))
    with (Policy.weights_in01 pol) in W.
  change (forallb (fun v => (0 <? v)%Z) (map snd (time_items b)))
    with (budgets_positive b) in T.
  destruct (PolicyCheckFacts.check_in01_outcome format_float (weight_items pol))
    as [E|[m E]]; rewrite E; cbn [bind].
  - split.
    + rewrite T. apply proj1 in W. specialize (W E). tauto.
    + apply PolicyCheckFacts.check_positive_outcome.
  - split.
    + split; [discriminate|]. intros [Hw _]. apply W in Hw. congruence.
    + right. now exists m.
Qed.

Lemma validate_policy_accepts_iff_witness :
  validate_policy (fun _ => "") (fun _ => "") Policy.default default_budgets
    = Return tt.
Proof.
  apply (proj1 (validate_policy_accepts_iff (fun _ => "") (fun _ => "")
                  Policy.default default_budgets)).
  split; reflexivity.
Defined.

(** X10: a policy with a NaN among its weights, bonuses or base
    confidences is refused: [validate_policy] raises a [ValueError]. *)
Theorem validate_policy_rejects_nan
    (format_float : float -> string) (format_int : Z -> string)
    (pol : Policy.t) (b : Budgets) (x : float) :
  In x (map snd (weight_items pol)) -> is_nan x = true ->
  raises_value_error (validate_policy format_float format_int pol b).
Proof.
  intros Hin Hnan. unfold validate_policy.
  destruct (PolicyCheckFacts.check_in01_outcome format_float (weight_items pol))
    as [E|[m E]].
  - exfalso.
    apply PolicyCheckFacts.check_in01_returns in E.
    rewrite forallb_forall in E. specialize (E x Hin).
    apply FloatFacts.is_nan_true in Hnan. subst x. discriminate.
  - rewrite E. now exists m.
Qed.

Lemma validate_policy_rejects_nan_witness :
  raises_value_error
    (validate_policy (fun _ => "nan") (fun _ => "") nan_policy default_budgets).
Proof.
  apply (validate_policy_rejects_nan (fun _ => "nan") (fun _ => "") nan_policy
           default_budgets nan).
  - left. reflexivity.
  - reflexivity.
Defined.

(** X11: [validate_policy] reports the first constant out of [0,1] in the
    order W_NLP, BOOST_AGREE, ADDR_BONUS_SIGGES, ADDR_BONUS_NLP,
    NLP_P_DEFAULT, DCO_BASE_CONF, DCO_NO_ADDRESS_PENALTY, SIGGES_ONLY_BASE,
    with its name and value in the message, before any time constant is
    looked at. *)
Theorem validate_policy_first_offender
    (format_float : float -> string) (format_int : Z -> string)
    (pol : Policy.t) (b : Budgets)
    (pre post : list (string * float)) (name : string) (val : float) :
  weight_items pol = (pre ++ (name, val) :: post)%list ->
  forallb Policy._in01 (map snd pre) = true ->
  Policy._in01 val = false ->
  validate_policy format_float format_int pol b =
  Raise (mkExn ValueError
           (name ++ " debe estar en [0,1]; valor actual=" ++ format_float val)).
Proof.
  intros Hi Hpre Hval. unfold validate_policy. rewrite Hi.
  now rewrite (PolicyCheckFacts.check_in01_first format_float pre post name val
                 Hpre Hval).
Qed.

Lemma validate_policy_first_offender_witness :
  validate_policy (fun _ => "1.5") (fun _ => "0") bad_policy bad_budgets
  = Raise (mkExn ValueError "BOOST_AGREE debe estar en [0,1]; valor actual=1.5").
Proof.
  apply (validate_policy_first_offender (fun _ => "1.5") (fun _ => "0")
           bad_policy bad_budgets
           [("W_NLP", 0.90%float)] (skipn 2 (weight_items bad_policy))
           "BOOST_AGREE" 1.5%float eq_refl eq_refl eq_refl).
Defined.

(** X12: under a policy [validate_policy] accepts, and for a model
    probability that is absent or in [0,1], every confidence returned by
    [decide_deceased] or [decide_alive] lies in [0.0, 1.0]. *)
Theorem validated_policy_confidence_in_unit
    (format_float : float -> string) (format_int : Z -> string)
    (pol : Policy.t) (b : Budgets)
    (dco_ev nlp_ev sigges_ev : option ResidenceEvidence)
    (q_sigges q_nlp : option AddressQuality) (d : DecisionCore) :
  validate_policy format_float format_int pol b = Return tt ->
  p_model_in01 nlp_ev = true ->
  decide_deceased pol dco_ev = Return d \/
  decide_alive pol nlp_ev sigges_ev q_sigges q_nlp = Return d ->
  Spec.in_unit (core_confidence d) = true.
Proof.
  intros Hv Hp Hd. unfold validate_policy in Hv.
  destruct (check_in01 format_float (weight_items pol)) as [[]|e] eqn:E;
    [|discriminate].
  apply PolicyCheckFacts.check_in01_returns in E.
  exact (validated_confidence_in_unit pol dco_ev nlp_ev sigges_ev q_sigges q_nlp
           d E Hp Hd).
Qed.

Lemma validated_policy_confidence_in_unit_witness :
  Spec.in_unit 0.9200000000000002 = true.
Proof.
  apply (validated_policy_confidence_in_unit (fun _ => "") (fun _ => "")
           Policy.default default_budgets None
           (Some Scenario.nlp_05101) (Some Scenario.sigges_05101)
           (Some EXACT) None
           {| core_comuna_code := "05101";
              core_address := "Av. X 100";
              core_confidence := 0.9200000000000002;
              core_sources := [NLP; SIGGES];
              core_rule_path := "ALIVE_NLP_AGREE_SIGGES";
              core_tie_break_reason := None |}
           eq_refl eq_refl).
  right. reflexivity.
Defined.

(** ** More on the orchestrator *)

Module DecideFacts.
Import Imputer Orchestrator Orchestrator2.

(** The alive path: fusion of what the two helpers gathered, then the
    catalog. *)
Lemma decide_alive_path (env : Env) (pol : Policy.t) (rut dv : string)
    (vital_status : Z) (ges_text noges_text : option string) (audit_id : string) :
  vital_status <> 2%Z ->
  decide env pol rut dv vital_status ges_text noges_text audit_id =
  bind (decide_alive pol (fst (nlp_result env ges_text noges_text))
          (fst (sigges_result env rut dv)) (snd (sigges_result env rut dv))
          (snd (nlp_result env ges_text noges_text)))
       (fun core => _complete_decision env core audit_id).
Proof.
  intros Hv. unfold decide, sigges_result, nlp_result, sigges_deadline, nlp_deadline.
  destruct (Z.eqb_spec vital_status 2) as [|_]; [contradiction|].
  destruct (_safe_fetch_sigges_with_quality env rut dv _) as [sigges_ev q_sigges].
  destruct (nonempty_texts ges_text noges_text) as [|t ts]; [reflexivity|].
  destruct (_safe_infer_nlp_with_quality env _ _) as [nlp_ev q_nlp].
  reflexivity.
Qed.

(** What [_complete_decision] returns, and what it raises. *)
Lemma complete_decision_returns (env : Env) (core : DecisionCore)
    (audit_id : string) (dec : Decision) :
  _complete_decision env core audit_id = Return dec ->
  d_comuna_code dec = core_comuna_code core /\
  d_address dec = core_address core /\
  d_confidence dec = core_confidence core /\
  d_sources dec = core_sources core /\
  d_audit_id dec = audit_id /\
  to_region_code env (d_comuna_code dec) = Return (d_region_code dec) /\
  to_comuna_name env (d_comuna_code dec) = Return (d_comuna dec) /\
  to_region_name env (d_region_code dec) = Return (d_region dec).
Proof.
  unfold _complete_decision. cbv zeta.
  destruct (to_region_code env (core_comuna_code core)) as [rc|] eqn:E1;
    [|discriminate].
  destruct (to_comuna_name env (core_comuna_code core)) as [cn|] eqn:E2;
    [|discriminate].
  cbn [bind].
  destruct (to_region_name env rc) as [rn|] eqn:E3; [|discriminate].
  cbn [bind]. intros H. injection H as <-. cbn.
  repeat split; trivial.
  destruct (core_address core); reflexivity.
Qed.

Lemma complete_decision_raises (env : Env) (core : DecisionCore)
    (audit_id : string) (e : exn) :
  _complete_decision env core audit_id = Raise e -> raised_by_catalog env e.
Proof.
  unfold _complete_decision, raised_by_catalog. cbv zeta.
  destruct (to_region_code env (core_comuna_code core)) as [rc|] eqn:E1;
    cbn [bind]; [|intros H; injection H as <-; eauto].
  destruct (to_comuna_name env (core_comuna_code core)) as [cn|] eqn:E2;
    cbn [bind]; [|intros H; injection H as <-; eauto].
  destruct (to_region_name env rc) as [rn|] eqn:E3;
    cbn [bind]; [discriminate|intros H; injection H as <-; eauto 6].
Qed.

(** What the two alive-path helpers hand back. *)
Lemma safe_fetch_sigges_shape (env : Env) (rut dv : string) (deadline : Z)
    (ev : option ResidenceEvidence) (q : option AddressQuality) :
  _safe_fetch_sigges_with_quality env rut dv deadline = (ev, q) ->
  (ev = None /\ q = None) \/
  (exists found,
     sigges_fetch env rut dv deadline = Return (Some found) /\
     ((ev = Some found /\ q = None /\
       (normalizer env = None \/ truthy (address found) = false)) \/
      (exists normalize a std hint,
         normalizer env = Some normalize /\ address found = Some a /\
         a <> "" /\ normalize a = Return (std, hint) /\
         ev = Some (set_address found std) /\ q = Some hint))).
Proof.
  unfold _safe_fetch_sigges_with_quality.
  destruct (sigges_fetch env rut dv deadline) as [[found|]|e];
    try (intros H; injection H as <- <-; now left).
  destruct (address found) as [a|] eqn:Ea.
  - destruct (normalizer env) as [normalize|] eqn:En.
    + destruct a as [|ch a']; simpl truthy_str; cbv iota.
      * intros H; injection H as <- <-. right. exists found.
        split; [reflexivity|]. left. rewrite Ea. simpl. auto.
      * destruct (normalize (String ch a')) as [[std hint]|e] eqn:Er.
        -- intros H; injection H as <- <-. right. exists found.
           split; [reflexivity|]. right.
           exists normalize, (String ch a'), std, hint.
           repeat split; trivial. discriminate.
        -- intros H; injection H as <- <-. now left.
    + intros H; injection H as <- <-. right. exists found.
      split; [reflexivity|]. left. auto.
  - intros H; injection H as <- <-. right. exists found.
    split; [reflexivity|]. left. rewrite Ea. simpl.
    destruct (normalizer env); auto.
Qed.

Lemma safe_infer_nlp_shape (env : Env) (texts : list string) (deadline : Z)
    (ev : option ResidenceEvidence) (q : option AddressQuality) :
  _safe_infer_nlp_with_quality env texts deadline = (ev, q) ->
  (ev = None /\ q = None) \/
  (exists found,
     nlp_infer env texts deadline = Return (Some found) /\
     ((ev = Some found /\ q = None /\
       (normalizer env = None \/ truthy (address found) = false)) \/
      (exists normalize a std hint,
         normalizer env = Some normalize /\ address found = Some a /\
         a <> "" /\ normalize a = Return (std, hint) /\
         ev = Some (set_address found std) /\ q = Some hint))).
Proof.
  unfold _safe_infer_nlp_with_quality.
  destruct (nlp_infer env texts deadline) as [[found|]|e];
    try (intros H; injection H as <- <-; now left).
  destruct (address found) as [a|] eqn:Ea.
  - destruct (normalizer env) as [normalize|] eqn:En.
    + destruct a as [|ch a']; simpl truthy_str; cbv iota.
      * intros H; injection H as <- <-. right. exists found.
        split; [reflexivity|]. left. rewrite Ea. simpl. auto.
      * destruct (normalize (String ch a')) as [[std hint]|e] eqn:Er.
        -- intros H; injection H as <- <-. right. exists found.
           split; [reflexivity|]. right.
           exists normalize, (String ch a'), std, hint.
           repeat split; trivial. discriminate.
        -- intros H; injection H as <- <-. now left.
    + intros H; injection H as <- <-. right. exists found.
      split; [reflexivity|]. left. auto.
  - intros H; injection H as <- <-. right. exists found.
    split; [reflexivity|]. left. rewrite Ea. simpl.
    destruct (normalizer env); auto.
Qed.

(** A decision of the deceased path is a decision of [decide_deceased],
    completed by the catalog. *)
Lemma decide_deceased_path_returns (env : Env) (pol : Policy.t) (rut dv : string)
    (ges_text noges_text : option string) (audit_id : string) (dec : Decision) :
  decide env pol rut dv 2 ges_text noges_text audit_id = Return dec ->
  exists dco_ev core,
    decide_deceased pol dco_ev = Return core /\
    _complete_decision env core audit_id = Return dec.
Proof.
  unfold decide. simpl Z.eqb. cbv iota.
  destruct (_safe_fetch_dco env rut dv _) as [dco_ev|e]; [|discriminate].
  cbn [bind].
  match goal with
  | |- bind ?m _ = _ -> _ => destruct m as [dco_ev'|e]; [|discriminate]
  end.
  cbn [bind].
  destruct (decide_deceased pol dco_ev') as [core|e] eqn:Ec; [|discriminate].
  cbn [bind]. eauto.
Qed.

End DecideFacts.

Import Imputer Orchestrator Orchestrator2.



(** X14: [decide] learns from each connector only its one answer: to
    [(rut, dv)] at the deadline of the call for DCO and SIGGES, to the
    non-empty texts at the deadline of the call for NLP.  A connector that
    gives the same answer there gives the same outcome. *)
Theorem decide_calls_connectors_once
    (env : Env) (pol : Policy.t) (rut dv : string) (vital_status : Z)
    (ges_text noges_text : option string) (audit_id : string) :
  (forall f,
      f rut dv (dco_deadline env) = dco_fetch env rut dv (dco_deadline env) ->
      decide (with_dco env f) pol rut dv vital_status ges_text noges_text audit_id
      = decide env pol rut dv vital_status ges_text noges_text audit_id) /\
  (forall f,
      f rut dv (sigges_deadline env)
        = sigges_fetch env rut dv (sigges_deadline env) ->
      decide (with_sigges env f) pol rut dv vital_status ges_text noges_text audit_id
      = decide env pol rut dv vital_status ges_text noges_text audit_id) /\
  (forall f,
      f (nonempty_texts ges_text noges_text) (nlp_deadline env)
        = nlp_infer env (nonempty_texts ges_text noges_text) (nlp_deadline env) ->
      decide (with_nlp env f) pol rut dv vital_status ges_text noges_text audit_id
      = decide env pol rut dv vital_status ges_text noges_text audit_id).
Proof.
  repeat split; intros f Hf; unfold decide;
    destruct (vital_status =? 2)%Z; try reflexivity.
  - unfold _safe_fetch_dco. cbn [dco_fetch with_dco].
    change (Z.min (budget_dco_ms (with_dco env f)) (remaining_ms (with_dco env f) 0))
      with (dco_deadline env).
    fold (dco_deadline env). now rewrite Hf.
  - unfold _safe_fetch_sigges_with_quality. cbn [sigges_fetch with_sigges].
    change (Z.min (budget_sigges_ms (with_sigges env f))
              (remaining_ms (with_sigges env f) 0))
      with (sigges_deadline env).
    fold (sigges_deadline env). now rewrite Hf.
  - change (_safe_fetch_sigges_with_quality (with_nlp env f))
      with (_safe_fetch_sigges_with_quality env).
    destruct (_safe_fetch_sigges_with_quality env rut dv _) as [sigges_ev q_sigges].
    destruct (nonempty_texts ges_text noges_text) as [|t ts] eqn:Et;
      [reflexivity|].
    unfold _safe_infer_nlp_with_quality. cbn [nlp_infer with_nlp].
    change (Z.min (budget_nlp_ms (with_nlp env f)) (remaining_ms (with_nlp env f) 1))
      with (nlp_deadline env).
    fold (nlp_deadline env). now rewrite Hf.
Qed.

Lemma decide_calls_connectors_once_witness :
  decide (with_sigges timeout_env
            (fun _ _ d => if (d =? 200)%Z
                          then Raise (mkExn TimeoutError "SIGGES timed out")
                          else Return (Some Scenario.sigges_05101)))
    Policy.default "12345678" "K" 1 (Some "vive en Valparaiso") None "audit-1"
  = decide timeout_env Policy.default "12345678" "K" 1
      (Some "vive en Valparaiso") None "audit-1".
Proof.
  apply (decide_calls_connectors_once timeout_env Policy.default
           "12345678" "K" 1 (Some "vive en Valparaiso") None "audit-1").
  reflexivity.
Defined.

(** X15: the two paths do not mix.  With [vital_status] 2 the SIGGES and
    NLP connectors play no part; with any other value, whichever it is, the
    alive path is taken and the DCO connector plays no part. *)
Theorem decide_paths_separate
    (env : Env) (pol : Policy.t) (rut dv : string)
    (ges_text noges_text : option string) (audit_id : string) :
  (forall f g,
      decide (with_sigges (with_nlp env g) f) pol rut dv 2 ges_text noges_text
        audit_id
      = decide env pol rut dv 2 ges_text noges_text audit_id) /\
  (forall (v v' : Z) f,
      v <> 2%Z -> v' <> 2%Z ->
      decide (with_dco env f) pol rut dv v ges_text noges_text audit_id
      = decide env pol rut dv v' ges_text noges_text audit_id).
Proof.
  split.
  - intros f g. reflexivity.
  - intros v v' f Hv Hv'. unfold decide.
    destruct (Z.eqb_spec v 2) as [|_]; [contradiction|].
    destruct (Z.eqb_spec v' 2) as [|_]; [contradiction|].
    reflexivity.
Qed.

Lemma decide_paths_separate_witness :
  decide (with_dco timeout_env (fun _ _ _ => Return (Some Scenario.dco_05101)))
    Policy.default "12345678" "K" 0 (Some "vive en Valparaiso") None "audit-1"
  = decide timeout_env Policy.default "12345678" "K" 1
      (Some "vive en Valparaiso") None "audit-1".
Proof.
  apply (decide_paths_separate timeout_env Policy.default "12345678" "K"
           (Some "vive en Valparaiso") None "audit-1");
    discriminate.
Defined.

(** X16: when both texts are missing or empty the NLP connector plays no
    part, and a decision of the alive path then has SIGGES as its only
    source. *)
Theorem decide_without_texts
    (env : Env) (pol : Policy.t) (rut dv : string) (vital_status : Z)
    (ges_text noges_text : option string) (audit_id : string) :
  truthy ges_text = false -> truthy noges_text = false ->
  (forall g,
      decide (with_nlp env g) pol rut dv vital_status ges_text noges_text audit_id
      = decide env pol rut dv vital_status ges_text noges_text audit_id) /\
  (forall dec,
      vital_status <> 2%Z ->
      decide env pol rut dv vital_status ges_text noges_text audit_id = Return dec ->
      d_sources dec = [SIGGES]).
Proof.
  intros Hg Hn.
  assert (Ht : nonempty_texts ges_text noges_text = []).
  { unfold nonempty_texts. now rewrite Hg, Hn. }
  split.
  - intros g. unfold decide. rewrite Ht.
    destruct (vital_status =? 2)%Z; reflexivity.
  - intros dec Hv Hd.
    rewrite (DecideFacts.decide_alive_path env pol rut dv vital_status
               ges_text noges_text audit_id Hv) in Hd.
    unfold nlp_result in Hd. rewrite Ht in Hd. cbn [fst snd] in Hd.
    destruct (decide_alive pol None (fst (sigges_result env rut dv))
                (snd (sigges_result env rut dv)) None) as [core|e] eqn:Ec;
      [|discriminate].
    cbn [bind] in Hd.
    apply DecideFacts.complete_decision_returns in Hd.
    destruct Hd as (_ & _ & _ & -> & _).
    destruct (Spec.has_comuna (fst (sigges_result env rut dv))) eqn:Hs.
    + destruct (has_comuna_code _ Hs) as (sg & c & Es & Hc & Hne & _).
      rewrite Es in Ec.
      rewrite (decide_alive_sigges_branch pol None sg c _ None eq_refl Hc Hne) in Ec.
      now injection Ec as <-.
    + rewrite (decide_alive_no_comuna pol None _ _ None eq_refl Hs) in Ec.
      discriminate.
Qed.

Lemma decide_without_texts_witness :
  decide (with_nlp registry_env (fun _ _ => Return (Some Scenario.nlp_05101)))
    Policy.default "12345678" "K" 1 (Some "") None "audit-1"
  = decide registry_env Policy.default "12345678" "K" 1 (Some "") None "audit-1".
Proof.
  apply (decide_without_texts registry_env Policy.default "12345678" "K" 1
           (Some "") None "audit-1" eq_refl eq_refl).
Defined.

(** X17: when the SIGGES connector fails and the NLP connector fails too, or
    is not called for want of a text, [decide] raises the
    insufficient-evidence [ValueError] of [decide_alive]. *)
Theorem decide_no_evidence_raises
    (env : Env) (pol : Policy.t) (rut dv : string) (vital_status : Z)
    (ges_text noges_text : option string) (audit_id : string) (e1 : exn) :
  vital_status <> 2%Z ->
  sigges_fetch env rut dv (sigges_deadline env) = Raise e1 ->
  (nonempty_texts ges_text noges_text = [] \/
   exists e2,
     nlp_infer env (nonempty_texts ges_text noges_text) (nlp_deadline env)
       = Raise e2) ->
  decide env pol rut dv vital_status ges_text noges_text audit_id
    = Raise (mkExn ValueError msg_alive).
Proof.
  intros Hv H1 H2.
  rewrite (DecideFacts.decide_alive_path env pol rut dv vital_status
             ges_text noges_text audit_id Hv).
  unfold sigges_result.
  rewrite (OrchestratorFacts.safe_fetch_sigges_raises env rut dv _ e1 H1).
  assert (Hn : nlp_result env ges_text noges_text = (None, None)).
  { unfold nlp_result. destruct H2 as [-> | [e2 H2]]; [reflexivity|].
    destruct (nonempty_texts ges_text noges_text); [reflexivity|].
    now apply OrchestratorFacts.safe_infer_nlp_raises with e2. }
  rewrite Hn. reflexivity.
Qed.

Lemma decide_no_evidence_raises_witness :
  decide timeout_env Policy.default "12345678" "K" 1 None (Some "") "audit-1"
    = Raise (mkExn ValueError msg_alive).
Proof.
  apply (decide_no_evidence_raises timeout_env Policy.default "12345678" "K" 1
           None (Some "") "audit-1" (mkExn TimeoutError "SIGGES timed out")).
  - discriminate.
  - reflexivity.
  - left. reflexivity.
Defined.

(** X18: every [Decision] that [decide] returns carries the caller's audit
    id, at least one source, and the region code and the names the catalog
    gives for its comuna code; on the deceased path the source is DCO
    alone, on the alive path DCO is not a source and the comuna code is not
    empty. *)
Theorem decide_returns_contract
    (env : Env) (pol : Policy.t) (rut dv : string) (vital_status : Z)
    (ges_text noges_text : option string) (audit_id : string) (dec : Decision) :
  decide env pol rut dv vital_status ges_text noges_text audit_id = Return dec ->
  d_audit_id dec = audit_id /\
  d_sources dec <> [] /\
  to_region_code env (d_comuna_code dec) = Return (d_region_code dec) /\
  to_comuna_name env (d_comuna_code dec) = Return (d_comuna dec) /\
  to_region_name env (d_region_code dec) = Return (d_region dec) /\
  (vital_status = 2%Z -> d_sources dec = [DCO]) /\
  (vital_status <> 2%Z ->
   ~ In DCO (d_sources dec) /\ d_comuna_code dec <> "").
Proof.
  intros Hd.
  destruct (Z.eq_dec vital_status 2) as [->|Hv].
  - destruct (DecideFacts.decide_deceased_path_returns env pol rut dv ges_text
                noges_text audit_id dec Hd) as (dco_ev & core & Hc & Hk).
    apply DecideFacts.complete_decision_returns in Hk.
    destruct Hk as (_ & _ & _ & Hs & Ha & Hrc & Hcn & Hrn).
    assert (S : core_sources core = [DCO]).
    { destruct dco_ev as [ev|]; simpl in Hc; [|discriminate].
      destruct (comuna_code ev); [|discriminate]. now injection Hc as <-. }
    rewrite S in Hs. rewrite Hs.
    repeat split; trivial; try discriminate; try congruence.
  - rewrite (DecideFacts.decide_alive_path env pol rut dv vital_status
               ges_text noges_text audit_id Hv) in Hd.
    destruct (decide_alive pol _ _ _ _) as [core|e] eqn:Ec; [|discriminate].
    cbn [bind] in Hd.
    apply DecideFacts.complete_decision_returns in Hd.
    destruct Hd as (Hcc & _ & _ & Hs & Ha & Hrc & Hcn & Hrn).
    pose proof (decide_alive_comuna_nonempty _ _ _ _ _ _ Ec) as Hne.
    assert (S : core_sources core <> [] /\ ~ In DCO (core_sources core)).
    { destruct (Spec.has_comuna (fst (nlp_result env ges_text noges_text)))
        eqn:Hn.
      - destruct (has_comuna_code _ Hn) as (nlp & c & En & Hc & Hc' & _).
        rewrite En in Ec.
        destruct (agreement (fst (sigges_result env rut dv)) (Some c)) eqn:Ag.
        + apply agreement_true in Ag. destruct Ag as (sg & Es & Hsc).
          rewrite Es in Ec.
          rewrite (decide_alive_agree pol nlp sg c _ _ Hc Hc' Hsc) in Ec.
          injection Ec as <-. simpl. split; [discriminate|].
          intros [H|[H|[]]]; discriminate.
        + rewrite (decide_alive_disagree_branch pol nlp _ c _ _ Hc Hc' Ag) in Ec.
          injection Ec as <-. simpl. split; [discriminate|].
          intros [H|[]]; discriminate.
      - destruct (Spec.has_comuna (fst (sigges_result env rut dv))) eqn:Hs'.
        + destruct (has_comuna_code _ Hs') as (sg & c & Es & Hc & Hc' & _).
          rewrite Es in Ec.
          rewrite (decide_alive_sigges_branch pol _ sg c _ _ Hn Hc Hc') in Ec.
          injection Ec as <-. simpl. split; [discriminate|].
          intros [H|[]]; discriminate.
        + rewrite (decide_alive_no_comuna pol _ _ _ _ Hn Hs') in Ec.
          discriminate. }
    destruct S as [S1 S2]. rewrite Hs. rewrite Hcc at 3.
    repeat split; trivial; contradiction.
Qed.

Lemma decide_returns_contract_witness :
  exists dec,
    decide timeout_env Policy.default "12345678" "K" 1
      (Some "vive en Valparaiso") None "audit-1" = Return dec /\
    d_audit_id dec = "audit-1" /\ d_sources dec <> [].
Proof.
  eexists. split; [reflexivity|].
  destruct (decide_returns_contract timeout_env Policy.default "12345678" "K" 1
              (Some "vive en Valparaiso") None "audit-1" _ eq_refl)
    as (Ha & Hs & _).
  split; [exact Ha | exact Hs].
Defined.

(** X19: on the alive path [decide] raises nothing but the
    insufficient-evidence [ValueError] of [decide_alive] and what the
    catalog raises; no exception of the SIGGES connector, of the NLP
    connector or of the normaliser comes out. *)
Theorem decide_alive_path_errors
    (env : Env) (pol : Policy.t) (rut dv : string) (vital_status : Z)
    (ges_text noges_text : option string) (audit_id : string) (e : exn) :
  vital_status <> 2%Z ->
  decide env pol rut dv vital_status ges_text noges_text audit_id = Raise e ->
  e = mkExn ValueError msg_alive \/ raised_by_catalog env e.
Proof.
  intros Hv Hd.
  rewrite (DecideFacts.decide_alive_path env pol rut dv vital_status
             ges_text noges_text audit_id Hv) in Hd.
  destruct (decide_alive pol _ _ _ _) as [core|e'] eqn:Ec; cbn [bind] in Hd.
  - right. eapply DecideFacts.complete_decision_raises. exact Hd.
  - left. injection Hd as <-.
    destruct (Spec.has_comuna (fst (nlp_result env ges_text noges_text))) eqn:Hn;
      [|destruct (Spec.has_comuna (fst (sigges_result env rut dv))) eqn:Hs].
    + destruct (decide_alive_returns pol _ (fst (sigges_result env rut dv))
                  (snd (sigges_result env rut dv))
                  (snd (nlp_result env ges_text noges_text)) (or_introl Hn))
        as [d Hr].
      congruence.
    + destruct (decide_alive_returns pol (fst (nlp_result env ges_text noges_text))
                  _ (snd (sigges_result env rut dv))
                  (snd (nlp_result env ges_text noges_text)) (or_intror Hs))
        as [d Hr].
      congruence.
    + rewrite (decide_alive_no_comuna pol _ _ _ _ Hn Hs) in Ec. congruence.
Qed.

Lemma decide_alive_path_errors_witness :
  mkExn DataQualityError "unknown comuna" = mkExn ValueError msg_alive \/
  raised_by_catalog unknown_comuna_env (mkExn DataQualityError "unknown comuna").
Proof.
  apply (decide_alive_path_errors unknown_comuna_env Policy.default
           "12345678" "K" 1 None None "audit-1").
  - discriminate.
  - reflexivity.
Defined.

(** X20: on the alive path a failure of the normaliser costs the whole
    evidence of that source, its comuna code included: the helper hands
    back [(None, None)] and [decide] goes on as if the connector had found
    nothing. *)
Theorem alive_normalizer_failure_drops_evidence
    (env : Env) (pol : Policy.t) (rut dv : string) (vital_status : Z)
    (ges_text noges_text : option string) (audit_id : string)
    (found : ResidenceEvidence) (normalize : string -> result (string * AddressQuality))
    (a : string) (e : exn) :
  vital_status <> 2%Z ->
  sigges_fetch env rut dv (sigges_deadline env) = Return (Some found) ->
  address found = Some a -> a <> "" ->
  normalizer env = Some normalize -> normalize a = Raise e ->
  _safe_fetch_sigges_with_quality env rut dv (sigges_deadline env) = (None, None) /\
  decide env pol rut dv vital_status ges_text noges_text audit_id
  = decide (with_sigges env absent_sigges) pol rut dv vital_status
      ges_text noges_text audit_id.
Proof.
  intros Hv Hf Ha Hne Hn He.
  assert (Hs : _safe_fetch_sigges_with_quality env rut dv (sigges_deadline env)
               = (None, None)).
  { unfold _safe_fetch_sigges_with_quality. rewrite Hf, Ha, Hn.
    destruct a as [|ch a']; [congruence|]. simpl truthy_str. cbv iota.
    now rewrite He. }
  split; [exact Hs|].
  unfold decide. destruct (Z.eqb_spec vital_status 2) as [|_]; [contradiction|].
  fold (sigges_deadline env). rewrite Hs. reflexivity.
Qed.

Lemma alive_normalizer_failure_drops_evidence_witness :
  decide failing_normalizer_env Policy.default "12345678" "K" 1 None None "audit-1"
  = Raise (mkExn ValueError msg_alive).
Proof.
  rewrite (proj2 (alive_normalizer_failure_drops_evidence failing_normalizer_env
                    Policy.default "12345678" "K" 1 None None "audit-1"
                    Scenario.sigges_05101
                    (fun _ => Raise (mkExn DataQualityError "bad address"))
                    "Av. X 100" (mkExn DataQualityError "bad address")
                    ltac:(discriminate) eq_refl eq_refl ltac:(discriminate)
                    eq_refl eq_refl)).
  reflexivity.
Defined.

(** X21: on the deceased path a failure of the normaliser is not caught:
    [decide] raises the normaliser's own exception, not a [ValueError] of
    the domain. *)
Theorem deceased_normalizer_failure_propagates
    (env : Env) (pol : Policy.t) (rut dv : string)
    (ges_text noges_text : option string) (audit_id : string)
    (found : ResidenceEvidence) (normalize : string -> result (string * AddressQuality))
    (a : string) (e : exn) :
  dco_fetch env rut dv (dco_deadline env) = Return (Some found) ->
  address found = Some a -> a <> "" ->
  normalizer env = Some normalize -> normalize a = Raise e ->
  decide env pol rut dv 2 ges_text noges_text audit_id = Raise e.
Proof.
  intros Hf Ha Hne Hn He. unfold decide. simpl Z.eqb. cbv iota.
  fold (dco_deadline env). unfold _safe_fetch_dco. rewrite Hf. cbn [bind].
  rewrite Hn, Ha. destruct a as [|ch a']; [congruence|].
  simpl truthy_str. cbv iota. rewrite He. reflexivity.
Qed.

Lemma deceased_normalizer_failure_propagates_witness :
  decide failing_normalizer_env Policy.default "12345678" "K" 2 None None "audit-1"
  = Raise (mkExn DataQualityError "bad address").
Proof.
  apply (deceased_normalizer_failure_propagates failing_normalizer_env
           Policy.default "12345678" "K" None None "audit-1"
           Scenario.dco_05101
           (fun _ => Raise (mkExn DataQualityError "bad address"))
           "Av. X 100" (mkExn DataQualityError "bad address")
           eq_refl eq_refl ltac:(discriminate) eq_refl eq_refl).
Defined.

(** X22: on the deceased path the address of the decision is the
    normaliser's standard form and the quality hint is dropped; when the
    standard form is empty the decision has the address [""] and pays the
    no-address penalty although the registry gave an address. *)
Theorem deceased_normalized_address
    (env : Env) (pol : Policy.t) (rut dv : string)
    (ges_text noges_text : option string) (audit_id : string)
    (found : ResidenceEvidence) (normalize : string -> result (string * AddressQuality))
    (a c std region_code comuna_name region_name : string) (hint : AddressQuality) :
  dco_fetch env rut dv (dco_deadline env) = Return (Some found) ->
  comuna_code found = Some c ->
  address found = Some a -> a <> "" ->
  normalizer env = Some normalize -> normalize a = Return (std, hint) ->
  to_region_code env c = Return region_code ->
  to_comuna_name env c = Return comuna_name ->
  to_region_name env region_code = Return region_name ->
  decide env pol rut dv 2 ges_text noges_text audit_id =
  Return {| d_region := region_name;
            d_region_code := region_code;
            d_comuna := comuna_name;
            d_comuna_code := c;
            d_address := std;
            d_confidence :=
              clamp (Policy.DCO_BASE_CONF pol *
                     (if truthy_str std then 1.0
                      else Policy.DCO_NO_ADDRESS_PENALTY pol));
            d_sources := [DCO];
            d_audit_id := audit_id |}.
Proof.
  intros Hf Hc Ha Hne Hn Hr Hrc Hcn Hrn. unfold decide. simpl Z.eqb. cbv iota.
  fold (dco_deadline env). unfold _safe_fetch_dco. rewrite Hf. cbn [bind].
  rewrite Hn, Ha. destruct a as [|ch a']; [congruence|].
  simpl truthy_str. cbv iota. rewrite Hr. cbn [bind fst].
  unfold decide_deceased. cbn [comuna_code address set_address]. rewrite Hc.
  cbn [bind]. unfold _complete_decision. cbv zeta.
  cbn [core_comuna_code core_address core_confidence core_sources].
  rewrite Hrc. cbn [bind]. rewrite Hcn. cbn [bind]. rewrite Hrn. cbn [bind].
  f_equal. f_equal; destruct std; reflexivity.
Qed.

Lemma deceased_normalized_address_witness :
  exists dec,
    decide registry_env Policy.default "12345678" "K" 2 None None "audit-1"
      = Return dec /\
    d_address dec = "" /\ d_confidence dec = (0.98 * 0.92)%float.
Proof.
  eexists. split.
  - apply (deceased_normalized_address registry_env Policy.default
             "12345678" "K" None None "audit-1" Scenario.dco_05101
             (fun _ => Return ("", UNKNOWN)) "Av. X 100" "05101" ""
             "05" "Valparaiso" "Valparaiso" UNKNOWN
             eq_refl eq_refl eq_refl ltac:(discriminate) eq_refl eq_refl
             eq_refl eq_refl eq_refl).
  - split; reflexivity.
Defined.

(** X23: on the alive path the normaliser's verdict drives the address
    bonus.  When only SIGGES carries a comuna code and its address was
    standardised, the decision has the standard form as address and the
    confidence [clamp(SIGGES_ONLY_BASE + ADDR_BONUS_SIGGES *
    quality_to_weight(hint))], the heuristic weight 0.7 playing no part. *)
Theorem alive_hint_from_normalizer
    (env : Env) (pol : Policy.t) (rut dv : string) (vital_status : Z)
    (ges_text noges_text : option string) (audit_id : string)
    (found : ResidenceEvidence) (normalize : string -> result (string * AddressQuality))
    (a c std region_code comuna_name region_name : string) (hint : AddressQuality) :
  vital_status <> 2%Z ->
  Spec.has_comuna (fst (nlp_result env ges_text noges_text)) = false ->
  sigges_fetch env rut dv (sigges_deadline env) = Return (Some found) ->
  comuna_code found = Some c -> c <> "" ->
  address found = Some a -> a <> "" ->
  normalizer env = Some normalize -> normalize a = Return (std, hint) ->
  to_region_code env c = Return region_code ->
  to_comuna_name env c = Return comuna_name ->
  to_region_name env region_code = Return region_name ->
  decide env pol rut dv vital_status ges_text noges_text audit_id =
  Return {| d_region := region_name;
            d_region_code := region_code;
            d_comuna := comuna_name;
            d_comuna_code := c;
            d_address := std;
            d_confidence :=
              clamp (Policy.SIGGES_ONLY_BASE pol +
                     Policy.ADDR_BONUS_SIGGES pol * quality_to_weight (Some hint));
            d_sources := [SIGGES];
            d_audit_id := audit_id |}.
Proof.
  intros Hv Hnlp Hf Hc Hne Ha Hane Hn Hr Hrc Hcn Hrn.
  rewrite (DecideFacts.decide_alive_path env pol rut dv vital_status
             ges_text noges_text audit_id Hv).
  assert (Hs : sigges_result env rut dv = (Some (set_address found std), Some hint)).
  { unfold sigges_result, _safe_fetch_sigges_with_quality. rewrite Hf, Ha, Hn.
    destruct a as [|ch a']; [congruence|]. simpl truthy_str. cbv iota.
    now rewrite Hr. }
  rewrite Hs. cbn [fst snd].
  rewrite (decide_alive_sigges_branch pol _ (set_address found std) c (Some hint)
             _ Hnlp Hc Hne).
  cbn [bind]. unfold _complete_decision. cbv zeta.
  cbn [core_comuna_code core_address core_confidence core_sources].
  rewrite Hrc. cbn [bind]. rewrite Hcn. cbn [bind]. rewrite Hrn. cbn [bind].
  f_equal. f_equal.
  cbn [set_address address]. destruct std; reflexivity.
Qed.

Lemma alive_hint_from_normalizer_witness :
  exists dec,
    decide registry_env Policy.default "12345678" "K" 1 None None "audit-1"
      = Return dec /\
    d_address dec = "" /\ d_confidence dec = (0.65 + 0.05 * 0.4)%float.
Proof.
  eexists. split.
  - apply (alive_hint_from_normalizer registry_env Policy.default
             "12345678" "K" 1 None None "audit-1" Scenario.sigges_05101
             (fun _ => Return ("", UNKNOWN)) "Av. X 100" "05101" ""
             "05" "Valparaiso" "Valparaiso" UNKNOWN
             ltac:(discriminate) eq_refl eq_refl eq_refl ltac:(discriminate)
             eq_refl ltac:(discriminate) eq_refl eq_refl
             eq_refl eq_refl eq_refl).
  - split; reflexivity.
Defined.

(** X24: the two helpers of the alive path invent nothing.  An evidence
    they hand back is the connector's, its address apart (origin, comuna
    code, probability, model version and date are untouched), and a
    quality hint only comes together with an evidence and with a
    normaliser configured. *)
Theorem alive_helpers_invent_nothing
    (env : Env) (rut dv : string) (texts : list string) (deadline : Z)
    (ev : option ResidenceEvidence) (q : option AddressQuality) :
  _safe_fetch_sigges_with_quality env rut dv deadline = (ev, q) \/
  _safe_infer_nlp_with_quality env texts deadline = (ev, q) ->
  (q <> None -> ev <> None /\ normalizer env <> None) /\
  (forall ev', ev = Some ev' ->
     exists found,
       (sigges_fetch env rut dv deadline = Return (Some found) \/
        nlp_infer env texts deadline = Return (Some found)) /\
       same_but_address found ev').
Proof.
  intros H.
  assert (S : (ev = None /\ q = None) \/
              (exists found,
                 (sigges_fetch env rut dv deadline = Return (Some found) \/
                  nlp_infer env texts deadline = Return (Some found)) /\
                 ((ev = Some found /\ q = None) \/
                  (exists std hint,
                     normalizer env <> None /\
                     ev = Some (set_address found std) /\ q = Some hint)))).
  { destruct H as [H|H];
      [apply DecideFacts.safe_fetch_sigges_shape in H
      |apply DecideFacts.safe_infer_nlp_shape in H];
      (destruct H as [H|(found & Hf & [(He & Hq & _)|
                                       (nz & a & std & hint & Hn & _ & _ & _ & He & Hq)])];
       [now left
       |right; exists found; split; [auto|left; auto]
       |right; exists found; split; [auto|right; exists std, hint;
                                          repeat split; trivial; congruence]]). }
  destruct S as [[-> ->]|(found & Hf & [[-> ->]|(std & hint & Hn & -> & ->)])].
  - split; [congruence|discriminate].
  - split; [congruence|].
    intros ev' E. injection E as <-. exists found. split; [exact Hf|].
    repeat split.
  - split; [intros _; split; [discriminate|exact Hn]|].
    intros ev' E. injection E as <-. exists found. split; [exact Hf|].
    repeat split.
Qed.

Lemma alive_helpers_invent_nothing_witness :
  exists found,
    (sigges_fetch registry_env "12345678" "K" 0 = Return (Some found) \/
     nlp_infer registry_env [] 0 = Return (Some found)) /\
    same_but_address found (set_address Scenario.sigges_05101 "").
Proof.
  apply (proj2 (alive_helpers_invent_nothing registry_env "12345678" "K" [] 0
                  (Some (set_address Scenario.sigges_05101 "")) (Some UNKNOWN)
                  (or_introl eq_refl))
           (set_address Scenario.sigges_05101 "") eq_refl).
Defined.

(** X25: a comuna code the catalog does not know makes [decide] raise the
    catalog's own exception: on the deceased path, with an evidence that
    has a comuna code and with no normaliser, what [to_region_code] raises
    comes out as it is. *)
Theorem deceased_catalog_failure_propagates
    (env : Env) (pol : Policy.t) (rut dv : string)
    (ges_text noges_text : option string) (audit_id : string)
    (found : ResidenceEvidence) (c : string) (e : exn) :
  dco_fetch env rut dv (dco_deadline env) = Return (Some found) ->
  normalizer env = None ->
  comuna_code found = Some c ->
  to_region_code env c = Raise e ->
  decide env pol rut dv 2 ges_text noges_text audit_id = Raise e.
Proof.
  intros Hf Hn Hc He. unfold decide. simpl Z.eqb. cbv iota.
  fold (dco_deadline env). unfold _safe_fetch_dco. rewrite Hf. cbn [bind].
  rewrite Hn. cbn [bind]. unfold decide_deceased. rewrite Hc. cbn [bind].
  unfold _complete_decision. cbv zeta. cbn [core_comuna_code].
  now rewrite He.
Qed.

Lemma deceased_catalog_failure_propagates_witness :
  decide unknown_comuna_env Policy.default "12345678" "K" 2 None None "audit-1"
  = Raise (mkExn DataQualityError "unknown comuna").
Proof.
  apply (deceased_catalog_failure_propagates unknown_comuna_env Policy.default
           "12345678" "K" None None "audit-1" Scenario.dco_05101 "05101"
           (mkExn DataQualityError "unknown comuna")
           eq_refl eq_refl eq_refl eq_refl).
Defined.
